(** * insights-results-aggregator-mock: the mock-resolution engine

    A shallow embedding of [storage/storage.go] (the in-memory fixture
    store, access control per organization, and the rotation of the
    "changing" clusters), followed by the properties of the
    specification that are stated about it.

    Conventions of the embedding:
    - a Go value of type [(T, error)] is a pair [T * option error], the
      error being [None] for [nil];
    - the package-level map [reports] is threaded explicitly: functions
      that read it take it as an argument, [initStorage] returns the
      updated map;
    - [time.Now().Minute()] is an argument [minute : Z] (Go documents
      its range as [0, 59]);
    - a run-time panic (integer division by zero, index out of range)
      is the outcome [Panic] of the [Run] monad. *)

From Stdlib Require Import ZArith String Ascii List Lia.
From stdpp Require Import base option list gmap strings fin_maps.

Local Open Scope string_scope.
Local Open Scope list_scope.
Local Open Scope Z_scope.

(* ===================================================================== *)
(** ** Go values                                                          *)
(* ===================================================================== *)

(** [types.OrgID] is an unsigned 32-bit integer, [types.ClusterName] and
    [types.ClusterReport] are string types. *)
Abbreviation OrgID := Z (only parsing).
Abbreviation ClusterName := string (only parsing).
Abbreviation ClusterReport := string (only parsing).

(** A Go [error]: either made by [errors.New], or handed back by the
    operating system through [filepath.Abs] / [os.ReadFile]. *)
Inductive error : Type :=
| errorString (msg : string)
| osError (op path msg : string).

#[global] Instance error_eq_dec : EqDecision error.
Proof. solve_decision. Defined.

(** Computations that may panic. *)
Inductive Run (A : Type) : Type :=
| Done (a : A)
| Panic.
Arguments Done {A} a.
Arguments Panic {A}.

#[global] Instance Run_ret : MRet Run := fun A a => Done a.

#[global] Instance Run_bind : MBind Run := fun A B k m =>
  match m with
  | Done a => k a
  | Panic => Panic
  end.

#[global] Instance Run_fmap : FMap Run := fun A B f m =>
  match m with
  | Done a => Done (f a)
  | Panic => Panic
  end.

(* ===================================================================== *)
(** ** Package [storage]                                                  *)
(* ===================================================================== *)

Module storage.

Definition clusterNotFoundMessage : string := "Cluster not found".

Definition changingClustersPeriodInMinutes : Z := 15.

Definition noPermissionsForOrg : string :=
  "You have no permissions to get or change info about this organization".

(** The part of the operating system [readReport] talks to. *)
Record FileSystem : Type := {
  Abs : string → string + error;
  ReadFile : string → string + error
}.

Definition readReport (fs : FileSystem) (path clusterName : string)
  : string * option error :=
  match Abs fs (path +:+ "/report_" +:+ clusterName +:+ ".json") with
  | inr err => ("", Some err)
  | inl absPath =>
      match ReadFile fs absPath with
      | inr err => ("", Some err)
      | inl report => (report, None)
      end
  end.

(** The list [clusters] of [initStorage]. *)
Definition clusters : list string := [
  "34c3ecc5-624a-49a5-bab8-4fdc5e51a266";
  "34c3ecc5-624a-49a5-bab8-4fdc5e51a267";
  "34c3ecc5-624a-49a5-bab8-4fdc5e51a268";
  "34c3ecc5-624a-49a5-bab8-4fdc5e51a269";
  "34c3ecc5-624a-49a5-bab8-4fdc5e51a26a";
  "34c3ecc5-624a-49a5-bab8-4fdc5e51a26b";
  "34c3ecc5-624a-49a5-bab8-4fdc5e51a26c";
  "34c3ecc5-624a-49a5-bab8-4fdc5e51a26d";
  "34c3ecc5-624a-49a5-bab8-4fdc5e51a26e";
  "34c3ecc5-624a-49a5-bab8-4fdc5e51a26f";
  "74ae54aa-6577-4e80-85e7-697cb646ff37";
  "a7467445-8d6a-43cc-b82c-7007664bdf69";
  "ee7d2bf4-8933-4a3a-8634-3328fe806e08";
  "eeeeeeee-eeee-eeee-eeee-000000000001";
  "00000001-624a-49a5-bab8-4fdc5e51a266";
  "00000001-624a-49a5-bab8-4fdc5e51a267";
  "00000001-624a-49a5-bab8-4fdc5e51a268";
  "00000001-624a-49a5-bab8-4fdc5e51a269";
  "00000001-624a-49a5-bab8-4fdc5e51a26a";
  "00000001-624a-49a5-bab8-4fdc5e51a26b";
  "00000001-624a-49a5-bab8-4fdc5e51a26c";
  "00000001-624a-49a5-bab8-4fdc5e51a26d";
  "00000001-624a-49a5-bab8-4fdc5e51a26e";
  "00000001-624a-49a5-bab8-4fdc5e51a26f";
  "00000001-6577-4e80-85e7-697cb646ff37";
  "00000001-8933-4a3a-8634-3328fe806e08";
  "00000001-8d6a-43cc-b82c-7007664bdf69";
  "00000001-eeee-eeee-eeee-000000000001";
  "00000002-624a-49a5-bab8-4fdc5e51a266";
  "00000002-6577-4e80-85e7-697cb646ff37";
  "00000002-8933-4a3a-8634-3328fe806e08";
  "00000003-8933-4a3a-8634-3328fe806e08";
  "00000003-8d6a-43cc-b82c-7007664bdf69";
  "00000003-eeee-eeee-eeee-000000000001"
].

(** The loop of [initStorage]: [for _, cluster := range clusters], with
    its early [return err]. The map is the package-level [reports]. *)
Fixpoint loadReports (fs : FileSystem) (path : string) (cs : list string)
    (reports : gmap string string) : gmap string string * option error :=
  match cs with
  | [] => (reports, None)
  | cluster :: rest =>
      match readReport fs path cluster with
      | (_, Some err) => (reports, Some err)
      | (report, None) => loadReports fs path rest (<[cluster := report]> reports)
      end
  end.

Definition initStorage (fs : FileSystem) (path : string)
    (reports : gmap string string) : gmap string string * option error :=
  loadReports fs path clusters reports.

(** [MemoryStorage] is an empty struct. *)
Inductive MemoryStorage : Type := mkMemoryStorage.

(** [New] returns the storage value together with whatever [initStorage]
    returned; the third component is the package-level map afterwards. *)
Definition New (fs : FileSystem) (path : string) (reports : gmap string string)
  : MemoryStorage * option error * gmap string string :=
  let '(reports', err) := initStorage fs path reports in
  (mkMemoryStorage, err, reports').

Definition ListOfOrgs : list OrgID * option error :=
  ([11789772; 11940171], None).

Definition clustersForOrganization11789772 : list ClusterName := [
  "34c3ecc5-624a-49a5-bab8-4fdc5e51a266";
  "34c3ecc5-624a-49a5-bab8-4fdc5e51a267";
  "34c3ecc5-624a-49a5-bab8-4fdc5e51a268";
  "34c3ecc5-624a-49a5-bab8-4fdc5e51a269";
  "34c3ecc5-624a-49a5-bab8-4fdc5e51a26a";
  "34c3ecc5-624a-49a5-bab8-4fdc5e51a26b";
  "34c3ecc5-624a-49a5-bab8-4fdc5e51a26c";
  "34c3ecc5-624a-49a5-bab8-4fdc5e51a26d";
  "34c3ecc5-624a-49a5-bab8-4fdc5e51a26e";
  "34c3ecc5-624a-49a5-bab8-4fdc5e51a26f";
  "74ae54aa-6577-4e80-85e7-697cb646ff37";
  "a7467445-8d6a-43cc-b82c-7007664bdf69";
  "ee7d2bf4-8933-4a3a-8634-3328fe806e08";
  "eeeeeeee-eeee-eeee-eeee-000000000001"
].

Definition clustersForOrganization1 : list ClusterName := [
  "00000001-624a-49a5-bab8-4fdc5e51a266";
  "00000001-624a-49a5-bab8-4fdc5e51a267";
  "00000001-624a-49a5-bab8-4fdc5e51a268";
  "00000001-624a-49a5-bab8-4fdc5e51a269";
  "00000001-624a-49a5-bab8-4fdc5e51a26a";
  "00000001-624a-49a5-bab8-4fdc5e51a26b";
  "00000001-624a-49a5-bab8-4fdc5e51a26c";
  "00000001-624a-49a5-bab8-4fdc5e51a26d";
  "00000001-624a-49a5-bab8-4fdc5e51a26e";
  "00000001-624a-49a5-bab8-4fdc5e51a26f";
  "00000001-6577-4e80-85e7-697cb646ff37";
  "00000001-8933-4a3a-8634-3328fe806e08";
  "00000001-8d6a-43cc-b82c-7007664bdf69";
  "00000001-eeee-eeee-eeee-000000000001"
].

Definition clustersForOrganization2 : list ClusterName := [
  "00000002-624a-49a5-bab8-4fdc5e51a266";
  "00000002-6577-4e80-85e7-697cb646ff37";
  "00000002-8933-4a3a-8634-3328fe806e08"
].

Definition clustersForOrganization3 : list ClusterName := [
  "00000003-8933-4a3a-8634-3328fe806e08";
  "00000003-8d6a-43cc-b82c-7007664bdf69";
  "00000003-eeee-eeee-eeee-000000000001"
].

(** The [switch orgID] of [ListOfClustersForOrg]; the three lists that
    the source appends inline are named here. *)
Definition ListOfClustersForOrg (orgID : OrgID) : list ClusterName * option error :=
  if orgID =? 11940171 then ([], Some (errorString noPermissionsForOrg))
  else if orgID =? 11789772 then (clustersForOrganization11789772, None)
  else if orgID =? 1 then (clustersForOrganization1, None)
  else if orgID =? 2 then (clustersForOrganization2, None)
  else if orgID =? 3 then (clustersForOrganization3, None)
  else ([], None).

Definition getReportForCluster (reports : gmap string string)
    (clusterName : ClusterName) : string * bool :=
  match reports !! clusterName with
  | None => ("", false)
  | Some report => (report, true)
  end.

(** The map literal [changingClusters] of [ReadReportForCluster]. *)
Definition changingClusters : gmap string (list string) :=
  <["cccccccc-cccc-cccc-cccc-000000000001" :=
      ["34c3ecc5-624a-49a5-bab8-4fdc5e51a266";
       "74ae54aa-6577-4e80-85e7-697cb646ff37";
       "a7467445-8d6a-43cc-b82c-7007664bdf69"]]>
  (<["cccccccc-cccc-cccc-cccc-000000000002" :=
      ["74ae54aa-6577-4e80-85e7-697cb646ff37";
       "a7467445-8d6a-43cc-b82c-7007664bdf69";
       "ee7d2bf4-8933-4a3a-8634-3328fe806e08"]]>
  (<["cccccccc-cccc-cccc-cccc-000000000003" :=
      ["ee7d2bf4-8933-4a3a-8634-3328fe806e08";
       "ee7d2bf4-8933-4a3a-8634-3328fe806e08";
       "34c3ecc5-624a-49a5-bab8-4fdc5e51a266"]]>
  (<["cccccccc-cccc-cccc-cccc-000000000004" :=
      ["eeeeeeee-eeee-eeee-eeee-000000000001";
       "eeeeeeee-eeee-eeee-eeee-000000000001";
       "34c3ecc5-624a-49a5-bab8-4fdc5e51a266"]]> ∅))).

(** [chooseReport]: Go's [/] and [%] on [int] truncate towards zero
    ([Z.quot], [Z.rem]); [%] by zero and an index outside the slice
    panic. The three log lines are not modelled. *)
Definition chooseReport (minute : Z) (variants : list string) : Run ClusterName :=
  let i := Z.quot minute changingClustersPeriodInMinutes in
  let n := Z.of_nat (length variants) in
  if n =? 0 then Panic
  else
    let i := Z.rem i n in
    if i <? 0 then Panic
    else
      match variants !! Z.to_nat i with
      | Some cluster => Done cluster
      | None => Panic
      end.

Definition ReadReportForCluster (reports : gmap string string) (minute : Z)
    (clusterName : ClusterName) : Run (ClusterReport * option error) :=
  reportName ←
    match changingClusters !! clusterName with
    | Some changingCluster => chooseReport minute changingCluster
    | None => Done clusterName
    end;
  match getReportForCluster reports reportName with
  | (_, false) => Done ("", Some (errorString clusterNotFoundMessage))
  | (report, true) => Done (report, None)
  end.

Definition ReadReportForOrganizationAndCluster (reports : gmap string string)
    (orgID : OrgID) (clusterName : ClusterName) : ClusterReport * option error :=
  if orgID =? 11940171 then ("", Some (errorString noPermissionsForOrg))
  else if (orgID =? 1) || (orgID =? 2) || (orgID =? 3) || (orgID =? 11789772) then
    match getReportForCluster reports clusterName with
    | (report, true) => (report, None)
    | (_, false) => ("", Some (errorString clusterNotFoundMessage))
    end
  else ("", Some (errorString clusterNotFoundMessage)).

End storage.

Import storage.


(* ===================================================================== *)
(** ** Vocabulary used to state the properties                            *)
(* ===================================================================== *)

(** What [ReadReportForCluster] answers once the report name is known:
    the stored payload, or the error "Cluster not found". *)
Definition stored (reports : gmap string string) (reportName : string)
  : ClusterReport * option error :=
  match reports !! reportName with
  | Some report => (report, None)
  | None => ("", Some (errorString clusterNotFoundMessage))
  end.

(** The only writer of the package-level map is [initStorage], so every
    key of the fixture store is one of its [clusters]. *)
Definition FixtureStore (reports : gmap string string) : Prop :=
  ∀ k, is_Some (reports !! k) → k ∈ clusters.

(** The map after the loop of [initStorage] has gone through [cs]
    without an error. *)
Definition loaded (fs : FileSystem) (path : string) (cs : list string)
    (reports : gmap string string) : gmap string string :=
  foldl (λ m cluster, <[cluster := (readReport fs path cluster).1]> m) reports cs.

(** A directory in which every report file can be read; the content of
    a file is its absolute path. *)
Definition healthyFS : FileSystem :=
  {| Abs := λ p, inl ("/srv/" +:+ p); ReadFile := λ p, inl p |}.

(** The same directory with the report of the second cluster missing. *)
Definition brokenFS : FileSystem :=
  {| Abs := λ p, inl ("/srv/" +:+ p);
     ReadFile := λ p,
       if String.eqb p "/srv/data/report_34c3ecc5-624a-49a5-bab8-4fdc5e51a267.json"
       then inr (osError "open" p "no such file or directory")
       else inl p |}.

(** The fixture store after a successful start on [healthyFS]. *)
Definition healthyStore : gmap string string :=
  (initStorage healthyFS "data" ∅).1.

(* ===================================================================== *)
(** ** The resolution engine around the storage                           *)
(* ===================================================================== *)

Module engine.

(** The HTTP handlers of package [server] that recognise
    synthetic-failure identifiers and aggregate batch requests are not
    among the sources (only their REST tests are). The definitions of
    this module follow §3, §4.2, §4.4, §4.5 and §6 of the specification;
    rotation and the fixture store lookup are the storage functions
    above. *)

(** Modelled from the spec: the result of [classify] (§4.4), absent with
    the handlers. *)
Inductive Classification : Type :=
| Normal
| Failing (statusCode : Z)
| Malformed.

(** Modelled from the spec: the Resolution Outcome of §3, absent with the
    handlers. *)
Inductive Outcome : Type :=
| Found (payload : ClusterReport)
| NotFound
| Unauthorized
| SyntheticFailure (statusCode : Z)
| MalformedIdentifier.

(** Modelled from the spec: the result of [authorize] (§4.2). *)
Inductive Authorization : Type := Permitted | Denied.

(** Modelled from the spec: [authorize] of §4.2, absent with the
    handlers; an organization is denied exactly when the storage refuses to
    list its clusters; a request without organization is not gated. *)
Definition authorize (org : option OrgID) : Authorization :=
  match org with
  | None => Permitted
  | Some orgID =>
      match (ListOfClustersForOrg orgID).2 with
      | Some _ => Denied
      | None => Permitted
      end
  end.

(** Modelled from the spec: the decoding of the status suffix (§4.4),
    absent with the handlers. The value of a decimal digit character. *)
Definition digitValue (c : ascii) : option Z :=
  let n := Z.of_N (N_of_ascii c) in
  if (48 <=? n) && (n <=? 57) then Some (n - 48) else None.

(** Modelled from the spec: the decimal reading of a digit string, for
    the absent decoder of §4.4. *)
Fixpoint parseDecimal (acc : Z) (s : string) : option Z :=
  match s with
  | EmptyString => Some acc
  | String c rest =>
      match digitValue c with
      | Some d => parseDecimal (10 * acc + d) rest
      | None => None
      end
  end.

(** Modelled from the spec: the absent decoder of §4.4, "parse the
    trailing 3 characters as an integer". *)
Definition parseStatusCode (s : string) : option Z :=
  match s with
  | EmptyString => None
  | _ => parseDecimal 0 s
  end.

(** Modelled from the spec: "the trailing 3 characters" of §4.4. *)
Definition trailing3 (s : string) : string :=
  substring (String.length s - 3)%nat 3 s.

(** Modelled from the spec: the result of [resolveAll] (§4.5), absent
    with the handlers. *)
Record BatchResult : Type := {
  found : list (ClusterName * ClusterReport);
  errored : list ClusterName
}.

(** Modelled from the spec: the aggregated response of a batch fetch
    (§6), built by the absent handler, with the field names of
    [MultipleReportsResponse] in the REST tests. *)
Record Response : Type := {
  Clusters : list ClusterName;
  Errors : list ClusterName;
  Reports : gmap string string
}.

(** Modelled from the spec: a denied batch "fails uniformly" (§4.5). *)
Inductive BatchOutcome : Type :=
| BatchDenied
| Batch (r : BatchResult).

Section Engine.

(** §6: "a fixed prefix followed by a 3-digit status-code suffix". The
    specification does not spell the prefix out. *)
Variable failurePrefix : string.

(** Modelled from the spec: [classify] of §4.4, absent with the
    handlers. *)
Definition classify (clusterName : ClusterName) : Classification :=
  if String.prefix failurePrefix clusterName then
    match parseStatusCode (trailing3 clusterName) with
    | Some code => Failing code
    | None => Malformed
    end
  else Normal.

(** Modelled from the spec: the per-cluster resolution of the absent
    handlers (§2, §4.5), what happens to one identifier that survived
    Access Control: Synthetic Failure Resolver, then rotation and
    lookup, which are [ReadReportForCluster]. *)
Definition resolveCluster (reports : gmap string string) (minute : Z)
    (clusterName : ClusterName) : Run Outcome :=
  match classify clusterName with
  | Failing code => mret (SyntheticFailure code)
  | Malformed => mret MalformedIdentifier
  | Normal =>
      r ← ReadReportForCluster reports minute clusterName;
      mret (match r with
            | (report, None) => Found report
            | (_, Some _) => NotFound
            end)
  end.

(** Modelled from the spec: the per-cluster report fetch of the absent
    handlers, with its optional organization (§6). *)
Definition resolveOne (reports : gmap string string) (minute : Z)
    (org : option OrgID) (clusterName : ClusterName) : Run Outcome :=
  match authorize org with
  | Denied => mret Unauthorized
  | Permitted => resolveCluster reports minute clusterName
  end.

(** Modelled from the spec: the loop of the absent Batch Aggregator
    (§4.5), one identifier after the
    other, appending to one of the two output sequences. *)
Fixpoint aggregate (reports : gmap string string) (minute : Z)
    (clusterNames : list ClusterName) (acc : BatchResult) : Run BatchResult :=
  match clusterNames with
  | [] => mret acc
  | clusterName :: rest =>
      o ← resolveCluster reports minute clusterName;
      aggregate reports minute rest
        (match o with
         | Found payload =>
             {| found := found acc ++ [(clusterName, payload)];
                errored := errored acc |}
         | _ =>
             {| found := found acc;
                errored := errored acc ++ [clusterName] |}
         end)
  end.

(** Modelled from the spec: [resolveAll] of §4.5, absent with the
    handlers. *)
Definition resolveAll (reports : gmap string string) (minute : Z)
    (org : option OrgID) (clusterNames : list ClusterName) : Run BatchOutcome :=
  match authorize org with
  | Denied => mret BatchDenied
  | Permitted =>
      r ← aggregate reports minute clusterNames {| found := []; errored := [] |};
      mret (Batch r)
  end.

(** Modelled from the spec: whether the per-cluster resolution ends in
    [Found], and with which payload. *)
Definition foundPayload (reports : gmap string string) (minute : Z)
    (clusterName : ClusterName) : option ClusterReport :=
  match resolveCluster reports minute clusterName with
  | Done (Found payload) => Some payload
  | _ => None
  end.

End Engine.

(** Modelled from the spec: [clusters], [errors] and [reports] of the
    response of the absent batch handler (§6). *)
Definition response (r : BatchResult) : Response :=
  {| Clusters := (found r).*1;
     Errors := errored r;
     Reports := list_to_map (found r) |}.

(** Modelled from the spec: the transport status of a per-cluster
    outcome, assigned by the absent routing layer (§6, §9); the status
    of a malformed synthetic-failure identifier is the one the REST test
    [checkReportForFailedClusterNegativeTestCase] expects. *)
Definition statusOf (o : Outcome) : Z :=
  match o with
  | Found _ => 200
  | NotFound => 404
  | Unauthorized => 403
  | SyntheticFailure code => code
  | MalformedIdentifier => 200
  end.

End engine.

Import engine.

(* ===================================================================== *)
(** ** Package [server]: the prefix of the REST API endpoints             *)
(* ===================================================================== *)

Module server.

(** [strings.HasSuffix] of the Go standard library:
    [len(s) >= len(suffix) && s[len(s)-len(suffix):] == suffix]. *)
Definition HasSuffix (s suffix : string) : bool :=
  (String.length suffix <=? String.length s)%nat
  && String.eqb
       (substring (String.length s - String.length suffix)%nat
          (String.length suffix) s)
       suffix.

(** The first statement of [addEndpointsToRouter] and of
    [addDebugEndpointsToRouter]: the value of the local [apiPrefix] after
    [if !strings.HasSuffix(apiPrefix, "/") { apiPrefix += "/" }]. *)
Definition apiPrefix (configured : string) : string :=
  if negb (HasSuffix configured "/") then configured +:+ "/" else configured.

(** [router.HandleFunc(apiPrefix+endpoint, ...)]: the path an endpoint
    is registered under. *)
Definition endpointPath (configured endpoint : string) : string :=
  apiPrefix configured +:+ endpoint.

End server.

(* ===================================================================== *)
(** ** Package [tests]: the helpers that inspect a batch response         *)
(* ===================================================================== *)

Module tests.

(** [MultipleReportsResponse]; the values of [Reports] are
    [interface{}], here any type [V]. *)
Record MultipleReportsResponse (V : Type) : Type := {
  Clusters : list string;
  Errors : list string;
  Reports : gmap string V;
  GeneratedAt : string;
  Status : string
}.
Arguments Clusters {V} _.
Arguments Errors {V} _.
Arguments Reports {V} _.
Arguments GeneratedAt {V} _.
Arguments Status {V} _.

(** The loop shared by the three helpers below:
    [for _, cluster := range ... { if cluster == clusterName { return } }];
    [true] when the helper returns from inside the loop. *)
Fixpoint foundInRange (names : list string) (clusterName : string) : bool :=
  match names with
  | [] => false
  | cluster :: rest =>
      if String.eqb cluster clusterName then true
      else foundInRange rest clusterName
  end.

(** The helpers touch the test object [f] through [f.AddError] only; each
    is modelled by the list of messages it hands to [f.AddError]. *)
Definition expectClusterInResponse {V : Type}
    (response : MultipleReportsResponse V) (clusterName : string) : list string :=
  if foundInRange (Clusters response) clusterName then []
  else ["Cluster " +:+ clusterName
        +:+ " can not be found in server response in the cluster list"].

Definition expectErrorClusterInResponse {V : Type}
    (response : MultipleReportsResponse V) (clusterName : string) : list string :=
  if foundInRange (Errors response) clusterName then []
  else ["Cluster " +:+ clusterName
        +:+ " can not be found in server response in the errors list"].

(** [for cluster := range reports] visits the keys of the map in an
    order Go leaves unspecified; [order] is the order of one run. *)
Definition expectReportInResponse {V : Type} (order : list string)
    (response : MultipleReportsResponse V) (clusterName : string) : list string :=
  if foundInRange order clusterName then []
  else ["Cluster " +:+ clusterName
        +:+ " can not be found in server response in reports map"].

(** [order] is a possible order of [range] over the map: every key
    once. *)
Definition rangeOrder {V : Type} (order : list string) (m : gmap string V) : Prop :=
  order ≡ₚ (map_to_list m).*1.

End tests.


(* ===================================================================== *)
(** ** Rotation of the changing clusters                                  *)
(* ===================================================================== *)

Section Rotation.

(** For a minute of the hour Go's truncating [/] is the floor. *)
Lemma period_quot_floor (minute : Z) :
  0 ≤ minute →
  Z.quot minute changingClustersPeriodInMinutes = minute `div` 15.
Proof.
  intros Hm. unfold changingClustersPeriodInMinutes.
  apply Z.quot_div_nonneg; lia.
Qed.

Lemma period_floor_range (minute : Z) :
  0 ≤ minute ≤ 59 → 0 ≤ minute `div` 15 ≤ 3.
Proof.
  intros [Hlo Hhi]. split.
  - apply Z.div_pos; lia.
  - assert (minute `div` 15 < 4); [|lia].
    apply Z.div_lt_upper_bound; lia.
Qed.

(** The index computed by [chooseReport] is the bucket of the
    specification, and it is inside the slice. *)
Lemma chooseReport_bucket (minute : Z) (variants : list string) :
  variants ≠ [] → 0 ≤ minute ≤ 59 →
  ∃ backing,
    variants !! Z.to_nat ((minute `div` 15) `mod` Z.of_nat (length variants))
      = Some backing
    ∧ chooseReport minute variants = Done backing.
Proof.
  intros Hne Hm.
  assert (Hn : 0 < Z.of_nat (length variants)).
  { destruct variants; [done | simpl; lia]. }
  pose proof (period_floor_range minute Hm) as Hq.
  pose proof (Z.mod_pos_bound (minute `div` 15) _ Hn) as Hb.
  destruct (lookup_lt_is_Some_2 variants
              (Z.to_nat ((minute `div` 15) `mod` Z.of_nat (length variants))))
    as [backing Hbacking]; [lia|].
  exists backing. split; [done|].
  unfold chooseReport.
  rewrite period_quot_floor by lia.
  rewrite Z.rem_mod_nonneg by lia.
  destruct (Z.eqb_spec (Z.of_nat (length variants)) 0) as [?|_]; [lia|].
  destruct (Z.ltb_spec ((minute `div` 15) `mod` Z.of_nat (length variants)) 0)
    as [?|_]; [lia|].
  by rewrite Hbacking.
Qed.

Lemma ReadReportForCluster_plain reports minute clusterName :
  changingClusters !! clusterName = None →
  ReadReportForCluster reports minute clusterName
  = Done (stored reports clusterName).
Proof.
  intros Hplain. unfold ReadReportForCluster, stored, getReportForCluster.
  rewrite Hplain. simpl. by destruct (reports !! clusterName).
Qed.

Lemma ReadReportForCluster_changing reports minute clusterName variants backing :
  changingClusters !! clusterName = Some variants →
  chooseReport minute variants = Done backing →
  ReadReportForCluster reports minute clusterName
  = Done (stored reports backing).
Proof.
  intros Hrot Hchoose. unfold ReadReportForCluster, stored, getReportForCluster.
  rewrite Hrot, Hchoose. simpl. by destruct (reports !! backing).
Qed.

(** The four entries of [changingClusters]. *)
Lemma changingClusters_entries clusterName variants :
  changingClusters !! clusterName = Some variants →
  (clusterName, variants) ∈ map_to_list changingClusters.
Proof. intros H. by apply elem_of_map_to_list. Qed.

End Rotation.

(* ===================================================================== *)
(** ** The fixture store and its initialization                           *)
(* ===================================================================== *)

Section Initialization.

Variable fs : FileSystem.
Variable path : string.

Lemma loaded_lookup (cs : list string) (m : gmap string string) (k : string) :
  loaded fs path cs m !! k
  = if decide (k ∈ cs) then Some (readReport fs path k).1 else m !! k.
Proof.
  revert m. induction cs as [|c cs IH]; intros m.
  - rewrite decide_False by apply not_elem_of_nil. done.
  - unfold loaded in *. simpl. rewrite IH.
    destruct (decide (k ∈ cs)) as [Hin|Hout].
    + rewrite decide_True; [done | by right].
    + destruct (decide (k = c)) as [->|Hne].
      * rewrite lookup_insert_eq. rewrite decide_True; [done | by left].
      * rewrite lookup_insert_ne by done.
        rewrite decide_False; [done|].
        intros [?|?]%elem_of_cons; done.
Qed.

Lemma loaded_app (pre post : list string) (m : gmap string string) :
  loaded fs path (pre ++ post) m = loaded fs path post (loaded fs path pre m).
Proof. unfold loaded. apply foldl_app. Qed.

(** The loop stops at the first cluster whose report cannot be read
    and hands back that read's error; the clusters before it are in
    the map. *)
Lemma loadReports_spec (cs : list string) (m m' : gmap string string)
    (oerr : option error) :
  loadReports fs path cs m = (m', oerr) →
  ∃ pre post,
    cs = pre ++ post
    ∧ Forall (λ c, (readReport fs path c).2 = None) pre
    ∧ m' = loaded fs path pre m
    ∧ match oerr with
      | None => post = []
      | Some err =>
          ∃ failing rest,
            post = failing :: rest ∧ (readReport fs path failing).2 = Some err
      end.
Proof.
  revert m. induction cs as [|c cs IH]; intros m Hrun; simpl in Hrun.
  - inversion Hrun; subst. exists [], []. by repeat split.
  - destruct (readReport fs path c) as [report [err|]] eqn:Hread.
    + inversion Hrun; subst. exists [], (c :: cs).
      repeat split; [done|]. exists c, cs. by rewrite Hread.
    + destruct (IH _ Hrun) as (pre & post & -> & Hpre & -> & Hpost).
      exists (c :: pre), post. repeat split; [| |done].
      * constructor; [by rewrite Hread | done].
      * unfold loaded. simpl. by rewrite Hread.
Qed.

Lemma FixtureStore_empty : FixtureStore ∅.
Proof. intros k [v Hv]. by rewrite lookup_empty in Hv. Qed.

Lemma FixtureStore_initStorage (m m' : gmap string string) (oerr : option error) :
  FixtureStore m → initStorage fs path m = (m', oerr) → FixtureStore m'.
Proof.
  intros Hm Hrun k Hk.
  destruct (loadReports_spec _ _ _ _ Hrun) as (pre & post & Hcs & _ & -> & _).
  rewrite loaded_lookup in Hk. case_decide as Hin; [|by apply Hm].
  unfold initStorage in *. rewrite Hcs. apply elem_of_app. by left.
Qed.

End Initialization.

Lemma clusters_not_changing :
  Forall (λ k, changingClusters !! k = None) storage.clusters.
Proof. apply (bool_decide_unpack _). by vm_compute. Qed.

Lemma FixtureStore_not_changing (reports : gmap string string) (k : string) :
  FixtureStore reports → is_Some (reports !! k) → changingClusters !! k = None.
Proof.
  intros Hstore Hk. pose proof clusters_not_changing as Hall.
  rewrite Forall_forall in Hall. by apply Hall, Hstore.
Qed.

(** Every entry of the rotation table has candidates, all of them
    clusters of the catalog, under a key that is not in the catalog. *)
Lemma changingClusters_wf :
  map_Forall (λ k variants,
      variants ≠ [] ∧ Forall (λ b, b ∈ storage.clusters) variants
      ∧ k ∉ storage.clusters)
    changingClusters.
Proof. apply (bool_decide_unpack _). by vm_compute. Qed.

(* ===================================================================== *)
(** ** Properties of the storage                                          *)
(* ===================================================================== *)

(** C1. For a non-empty candidate sequence of length N and a minute of
    the hour, [chooseReport] returns the candidate at index
    floor(minute / 15) mod N, and [ReadReportForCluster] on a rotating
    identifier mapped to that sequence answers with what the fixture
    store holds for the candidate so selected. With four candidates,
    minutes 0 and 14 select index 0, minute 15 index 1, minute 44
    index 2 and minute 59 index 3. *)
Theorem rotation_selects_bucket (minute : Z) (variants : list string) :
  variants ≠ [] → 0 ≤ minute ≤ 59 →
  (∃ backing,
     variants !! Z.to_nat ((minute `div` 15) `mod` Z.of_nat (length variants))
       = Some backing
     ∧ chooseReport minute variants = Done backing
     ∧ ∀ (reports : gmap string string) (clusterName : string),
         changingClusters !! clusterName = Some variants →
         ReadReportForCluster reports minute clusterName
         = Done (match reports !! backing with
                 | Some report => (report, None)
                 | None => ("", Some (errorString "Cluster not found"))
                 end))
  ∧ (∀ c0 c1 c2 c3 : string,
       chooseReport 0 [c0; c1; c2; c3] = Done c0
       ∧ chooseReport 14 [c0; c1; c2; c3] = Done c0
       ∧ chooseReport 15 [c0; c1; c2; c3] = Done c1
       ∧ chooseReport 44 [c0; c1; c2; c3] = Done c2
       ∧ chooseReport 59 [c0; c1; c2; c3] = Done c3).
Proof.
  intros Hne Hm. split.
  - destruct (chooseReport_bucket minute variants Hne Hm)
      as (backing & Hlookup & Hchoose).
    exists backing. repeat split; [done..|].
    intros reports clusterName Hrot.
    by rewrite (ReadReportForCluster_changing _ _ _ _ _ Hrot Hchoose).
  - intros c0 c1 c2 c3. by repeat split.
Qed.

Lemma rotation_selects_bucket_witness :
  ["ee7d2bf4-8933-4a3a-8634-3328fe806e08";
   "ee7d2bf4-8933-4a3a-8634-3328fe806e08";
   "34c3ecc5-624a-49a5-bab8-4fdc5e51a266"] ≠ []
  ∧ 0 ≤ 31 ≤ 59
  ∧ ∃ backing,
      chooseReport 31
        ["ee7d2bf4-8933-4a3a-8634-3328fe806e08";
         "ee7d2bf4-8933-4a3a-8634-3328fe806e08";
         "34c3ecc5-624a-49a5-bab8-4fdc5e51a266"] = Done backing.
Proof.
  split; [done|]. split; [lia|].
  destruct (rotation_selects_bucket 31
              ["ee7d2bf4-8933-4a3a-8634-3328fe806e08";
               "ee7d2bf4-8933-4a3a-8634-3328fe806e08";
               "34c3ecc5-624a-49a5-bab8-4fdc5e51a266"])
    as [(backing & _ & Hchoose & _) _]; [done | lia |].
  by exists backing.
Defined.

(** C2. Organization 11940171 is the one denied organization: the
    operations that take an organization ID answer it with the error
    "You have no permissions to get or change info about this
    organization", with an empty cluster list and an empty payload,
    whatever the cluster identifier; no other organization ID gets that
    error. *)
Theorem denied_organization :
  ListOfClustersForOrg 11940171
  = ([], Some (errorString
        "You have no permissions to get or change info about this organization"))
  ∧ (∀ (reports : gmap string string) (clusterName : string),
       ReadReportForOrganizationAndCluster reports 11940171 clusterName
       = ("", Some (errorString
            "You have no permissions to get or change info about this organization")))
  ∧ (∀ orgID : Z, is_Some (ListOfClustersForOrg orgID).2 ↔ orgID = 11940171)
  ∧ (∀ (reports : gmap string string) (orgID : Z) (clusterName : string),
       (ReadReportForOrganizationAndCluster reports orgID clusterName).2
       = Some (errorString noPermissionsForOrg)
       ↔ orgID = 11940171).
Proof.
  split; [done|]. split; [done|]. split.
  - intros orgID. unfold ListOfClustersForOrg.
    repeat (case_match; simpl); split;
      try (by intros []); try (by eexists); lia.
  - intros reports orgID clusterName.
    unfold ReadReportForOrganizationAndCluster, getReportForCluster.
    repeat (case_match; simpl); split; try done; lia.
Qed.

(** C3. For an organization other than 11940171 [ListOfClustersForOrg]
    returns no error: organizations 1, 2, 3 and 11789772 get their fixed
    ordered lists, any other organization gets the empty list, which
    differs from the answer given to the denied organization. *)
Theorem permitted_organizations_listing :
  (∀ orgID : Z, orgID ≠ 11940171 → (ListOfClustersForOrg orgID).2 = None)
  ∧ ListOfClustersForOrg 11789772 = (clustersForOrganization11789772, None)
  ∧ ListOfClustersForOrg 1
    = (["00000001-624a-49a5-bab8-4fdc5e51a266";
        "00000001-624a-49a5-bab8-4fdc5e51a267";
        "00000001-624a-49a5-bab8-4fdc5e51a268";
        "00000001-624a-49a5-bab8-4fdc5e51a269";
        "00000001-624a-49a5-bab8-4fdc5e51a26a";
        "00000001-624a-49a5-bab8-4fdc5e51a26b";
        "00000001-624a-49a5-bab8-4fdc5e51a26c";
        "00000001-624a-49a5-bab8-4fdc5e51a26d";
        "00000001-624a-49a5-bab8-4fdc5e51a26e";
        "00000001-624a-49a5-bab8-4fdc5e51a26f";
        "00000001-6577-4e80-85e7-697cb646ff37";
        "00000001-8933-4a3a-8634-3328fe806e08";
        "00000001-8d6a-43cc-b82c-7007664bdf69";
        "00000001-eeee-eeee-eeee-000000000001"], None)
  ∧ ListOfClustersForOrg 2
    = (["00000002-624a-49a5-bab8-4fdc5e51a266";
        "00000002-6577-4e80-85e7-697cb646ff37";
        "00000002-8933-4a3a-8634-3328fe806e08"], None)
  ∧ ListOfClustersForOrg 3
    = (["00000003-8933-4a3a-8634-3328fe806e08";
        "00000003-8d6a-43cc-b82c-7007664bdf69";
        "00000003-eeee-eeee-eeee-000000000001"], None)
  ∧ (∀ orgID : Z,
       orgID ≠ 1 → orgID ≠ 2 → orgID ≠ 3 → orgID ≠ 11789772 →
       orgID ≠ 11940171 →
       ListOfClustersForOrg orgID = ([], None)
       ∧ ListOfClustersForOrg orgID ≠ ListOfClustersForOrg 11940171).
Proof.
  split.
  { intros orgID Hne. unfold ListOfClustersForOrg.
    repeat (case_match; simpl); try done; lia. }
  do 4 (split; [done|]).
  intros orgID H1 H2 H3 H4 H5.
  assert (Hlist : ListOfClustersForOrg orgID = ([], None)).
  { unfold ListOfClustersForOrg. repeat (case_match; simpl); try done; lia. }
  split; [done|]. by rewrite Hlist.
Qed.

Lemma permitted_organizations_listing_witness :
  (ListOfClustersForOrg 2).2 = None
  ∧ ListOfClustersForOrg 1234 = ([], None).
Proof.
  destruct permitted_organizations_listing as (Hok & _ & _ & _ & _ & Hunknown).
  split.
  - apply (Hok 2). lia.
  - apply (Hunknown 1234); lia.
Defined.

Lemma ReadReportForOrganizationAndCluster_permitted
    (reports : gmap string string) (orgID : Z) (clusterName : string) :
  orgID ∈ [1; 2; 3; 11789772] →
  ReadReportForOrganizationAndCluster reports orgID clusterName
  = stored reports clusterName.
Proof.
  intros Horg.
  repeat (apply elem_of_cons in Horg as [->|Horg];
          [unfold ReadReportForOrganizationAndCluster, getReportForCluster, stored;
           simpl; by destruct (reports !! clusterName)|]).
  by apply elem_of_nil in Horg.
Qed.

(** C9. An identifier that is neither rotating nor a key of the fixture
    store makes [ReadReportForCluster], and
    [ReadReportForOrganizationAndCluster] under organizations 1, 2, 3
    and 11789772, return the error "Cluster not found" (a returned
    value, no panic); an identifier that is a key of the fixture store
    (its keys are clusters of the catalog, none of them rotating) makes
    them return the stored payload unchanged, with no error. *)
Theorem unknown_cluster_not_found_known_cluster_verbatim
    (reports : gmap string string) (minute : Z) (clusterName : string) :
  (changingClusters !! clusterName = None → reports !! clusterName = None →
     ReadReportForCluster reports minute clusterName
     = Done ("", Some (errorString "Cluster not found"))
     ∧ ∀ orgID : Z, orgID ∈ [1; 2; 3; 11789772] →
         ReadReportForOrganizationAndCluster reports orgID clusterName
         = ("", Some (errorString "Cluster not found")))
  ∧ (FixtureStore reports ∨ changingClusters !! clusterName = None →
     ∀ payload : string, reports !! clusterName = Some payload →
       ReadReportForCluster reports minute clusterName = Done (payload, None)
       ∧ ∀ orgID : Z, orgID ∈ [1; 2; 3; 11789772] →
           ReadReportForOrganizationAndCluster reports orgID clusterName
           = (payload, None)).
Proof.
  split.
  - intros Hplain Hmiss. split.
    + rewrite ReadReportForCluster_plain by done. unfold stored. by rewrite Hmiss.
    + intros orgID Horg.
      rewrite ReadReportForOrganizationAndCluster_permitted by done.
      unfold stored. by rewrite Hmiss.
  - intros Hstore payload Hkey. split.
    + rewrite ReadReportForCluster_plain.
      * unfold stored. by rewrite Hkey.
      * destruct Hstore as [Hstore|Hplain]; [|done].
        apply (FixtureStore_not_changing reports); [done | by eexists].
    + intros orgID Horg.
      rewrite ReadReportForOrganizationAndCluster_permitted by done.
      unfold stored. by rewrite Hkey.
Qed.

Lemma healthyStore_FixtureStore : FixtureStore healthyStore.
Proof.
  apply (FixtureStore_initStorage healthyFS "data" ∅ _
           (initStorage healthyFS "data" ∅).2 FixtureStore_empty).
  apply surjective_pairing.
Qed.

Lemma unknown_cluster_not_found_known_cluster_verbatim_witness :
  ReadReportForCluster healthyStore 7 "bbbbbbbb-bbbb-bbbb-bbbb-cccccccccccc"
  = Done ("", Some (errorString "Cluster not found"))
  ∧ ReadReportForOrganizationAndCluster healthyStore 2
      "00000002-6577-4e80-85e7-697cb646ff37"
    = ("/srv/data/report_00000002-6577-4e80-85e7-697cb646ff37.json", None).
Proof.
  split.
  - apply (unknown_cluster_not_found_known_cluster_verbatim healthyStore 7
             "bbbbbbbb-bbbb-bbbb-bbbb-cccccccccccc");
      vm_compute; reflexivity.
  - apply (unknown_cluster_not_found_known_cluster_verbatim healthyStore 7
             "00000002-6577-4e80-85e7-697cb646ff37").
    + left. exact healthyStore_FixtureStore.
    + vm_compute. reflexivity.
    + set_solver.
Defined.

(** C10. For an organization ID other than 1, 2, 3, 11789772 and
    11940171, [ReadReportForOrganizationAndCluster] returns the error
    "Cluster not found" and an empty payload for every cluster
    identifier, also for one whose report the fixture store holds. *)
Theorem unknown_organization_gets_no_report
    (reports : gmap string string) (orgID : Z) (clusterName : string) :
  orgID ∉ [1; 2; 3; 11789772; 11940171] →
  ReadReportForOrganizationAndCluster reports orgID clusterName
  = ("", Some (errorString "Cluster not found")).
Proof.
  intros Horg.
  assert (orgID ≠ 1 ∧ orgID ≠ 2 ∧ orgID ≠ 3 ∧ orgID ≠ 11789772
          ∧ orgID ≠ 11940171) as (H1 & H2 & H3 & H4 & H5) by set_solver.
  unfold ReadReportForOrganizationAndCluster.
  destruct (Z.eqb_spec orgID 11940171) as [?|_]; [done|].
  destruct (Z.eqb_spec orgID 1) as [?|_]; [done|].
  destruct (Z.eqb_spec orgID 2) as [?|_]; [done|].
  destruct (Z.eqb_spec orgID 3) as [?|_]; [done|].
  destruct (Z.eqb_spec orgID 11789772) as [?|_]; [done|].
  done.
Qed.

Lemma unknown_organization_gets_no_report_witness :
(1234 ∉ [1; 2; 3; 11789772; 11940171])
  ∧ healthyStore !! "34c3ecc5-624a-49a5-bab8-4fdc5e51a266"
    = Some "/srv/data/report_34c3ecc5-624a-49a5-bab8-4fdc5e51a266.json"
  ∧ ReadReportForOrganizationAndCluster healthyStore 1234
      "34c3ecc5-624a-49a5-bab8-4fdc5e51a266"
    = ("", Some (errorString "Cluster not found")).
Proof.
  assert (Hout : 1234 ∉ [1; 2; 3; 11789772; 11940171]).
  { intros Hin. repeat (apply elem_of_cons in Hin as [Hin|Hin]; [lia|]).
    by apply elem_of_nil in Hin. }
  split; [exact Hout|]. split; [vm_compute; reflexivity|].
  exact (unknown_organization_gets_no_report healthyStore 1234 _ Hout).
Defined.

(** After a start without error the fixture store holds exactly the
    clusters of the catalog, each with the content of its file. *)
Lemma initStorage_success (fs : FileSystem) (path : string)
    (reports : gmap string string) :
  initStorage fs path ∅ = (reports, None) →
  ∀ k, reports !! k
       = if decide (k ∈ storage.clusters) then Some (readReport fs path k).1
         else None.
Proof.
  intros Hrun k.
  destruct (loadReports_spec _ _ _ _ _ _ Hrun) as (pre & post & Hcs & _ & -> & ->).
  rewrite app_nil_r in Hcs. rewrite <- Hcs.
  rewrite loaded_lookup. by rewrite lookup_empty.
Qed.

(** The organization-scoped fetch never rotates: on a fully loaded
    fixture store a rotating identifier is unknown to it, while the
    fetch without organization finds the report of a backing cluster. *)
Lemma organization_fetch_does_not_rotate (fs : FileSystem) (path : string)
    (reports : gmap string string) (minute orgID : Z) (clusterName : string) :
  initStorage fs path ∅ = (reports, None) →
  0 ≤ minute ≤ 59 →
  orgID ∈ [1; 2; 3; 11789772] →
  is_Some (changingClusters !! clusterName) →
  ReadReportForOrganizationAndCluster reports orgID clusterName
  = ("", Some (errorString "Cluster not found"))
  ∧ ∃ payload, ReadReportForCluster reports minute clusterName
               = Done (payload, None).
Proof.
  intros Hrun Hm Horg [variants Hrot].
  pose proof (initStorage_success _ _ _ Hrun) as Hstore.
  destruct (changingClusters_wf _ _ Hrot) as (Hne & Hbacking & Hkey).
  split.
  - rewrite ReadReportForOrganizationAndCluster_permitted by done.
    unfold stored. rewrite Hstore. by rewrite decide_False.
  - destruct (chooseReport_bucket minute variants Hne Hm)
      as (backing & Hlookup & Hchoose).
    rewrite (ReadReportForCluster_changing _ _ _ _ _ Hrot Hchoose).
    unfold stored. rewrite Hstore. rewrite decide_True; [by eexists|].
    rewrite Forall_forall in Hbacking.
    apply Hbacking. by eapply list_elem_of_lookup_2.
Qed.

(** C7. The code at the failing input: on the fully loaded fixture
    store, rotating identifier cccccccc-cccc-cccc-cccc-000000000001
    requested under organization 11789772 is answered "Cluster not
    found", while the same identifier requested without organization is
    answered with the report of the rotated backing cluster. *)
Theorem rotating_identifier_under_organization :
  ReadReportForOrganizationAndCluster healthyStore 11789772
    "cccccccc-cccc-cccc-cccc-000000000001"
  = ("", Some (errorString "Cluster not found"))
  ∧ ReadReportForCluster healthyStore 0 "cccccccc-cccc-cccc-cccc-000000000001"
    = Done ("/srv/data/report_34c3ecc5-624a-49a5-bab8-4fdc5e51a266.json", None)
  ∧ healthyStore !! "34c3ecc5-624a-49a5-bab8-4fdc5e51a266"
    = Some "/srv/data/report_34c3ecc5-624a-49a5-bab8-4fdc5e51a266.json"
  ∧ (initStorage healthyFS "data" ∅).2 = None.
Proof. repeat split; vm_compute; reflexivity. Qed.

(** C8, as the code has it. [initStorage] started on the empty map goes
    through the catalog in order and stops at the first cluster whose
    report cannot be read, returning the error of that read; [New] hands
    the same error to its caller. The map then holds the payloads of
    the clusters read before the failing one and nothing else; without
    an error it holds the payload of every cluster of the catalog. *)
Theorem initStorage_fail_fast (fs : FileSystem) (path : string)
    (reports : gmap string string) (oerr : option error) :
  initStorage fs path ∅ = (reports, oerr) →
  New fs path ∅ = (mkMemoryStorage, oerr, reports)
  ∧ ∃ before rest,
      storage.clusters = before ++ rest
      ∧ (∀ c, c ∈ before →
           (readReport fs path c).2 = None
           ∧ reports !! c = Some (readReport fs path c).1)
      ∧ (∀ c, c ∉ before → reports !! c = None)
      ∧ match oerr with
        | None => rest = []
        | Some err =>
            ∃ failing after,
              rest = failing :: after
              ∧ (readReport fs path failing).2 = Some err
        end.
Proof.
  intros Hrun. split.
  { unfold New. by rewrite Hrun. }
  destruct (loadReports_spec _ _ _ _ _ _ Hrun)
    as (before & rest & Hcs & Hread & -> & Hrest).
  exists before, rest. split; [done|]. split; [|split; [|done]].
  - intros c Hc. rewrite Forall_forall in Hread. split; [by apply Hread|].
    rewrite loaded_lookup. by rewrite decide_True.
  - intros c Hc. rewrite loaded_lookup. rewrite decide_False by done.
    apply lookup_empty.
Qed.

Lemma initStorage_fail_fast_witness :
  New brokenFS "data" ∅
  = (mkMemoryStorage, (initStorage brokenFS "data" ∅).2,
     (initStorage brokenFS "data" ∅).1).
Proof.
  apply (initStorage_fail_fast brokenFS "data"
           (initStorage brokenFS "data" ∅).1 (initStorage brokenFS "data" ∅).2).
  apply surjective_pairing.
Defined.

(** C8, the counterexample. With the report of the second cluster
    missing, [New] returns a storage value together with the error of
    that file; the map holds the first cluster only, and the storage
    answers a request for it with its payload. *)
Lemma failed_start_leaves_partial_store :
  (New brokenFS "data" ∅).1
  = (mkMemoryStorage,
     Some (osError "open"
             "/srv/data/report_34c3ecc5-624a-49a5-bab8-4fdc5e51a267.json"
             "no such file or directory"))
  ∧ (New brokenFS "data" ∅).2
    = {[ "34c3ecc5-624a-49a5-bab8-4fdc5e51a266" :=
           "/srv/data/report_34c3ecc5-624a-49a5-bab8-4fdc5e51a266.json" ]}
  ∧ ReadReportForCluster (New brokenFS "data" ∅).2 0
      "34c3ecc5-624a-49a5-bab8-4fdc5e51a266"
    = Done ("/srv/data/report_34c3ecc5-624a-49a5-bab8-4fdc5e51a266.json", None)
  ∧ ReadReportForCluster (New brokenFS "data" ∅).2 0
      "34c3ecc5-624a-49a5-bab8-4fdc5e51a268"
    = Done ("", Some (errorString "Cluster not found")).
Proof. repeat split; vm_compute; reflexivity. Qed.

(* ===================================================================== *)
(** ** Strings: trailing characters, prefixes, decimal digits             *)
(* ===================================================================== *)

Lemma string_length_app (a b : string) :
  String.length (a +:+ b) = (String.length a + String.length b)%nat.
Proof. induction a as [|c a IH]; simpl; [done | by rewrite IH]. Qed.

Lemma substring_skip_app (a b : string) (n : nat) :
  substring (String.length a) n (a +:+ b) = substring 0 n b.
Proof. induction a as [|c a IH]; simpl; [done | exact IH]. Qed.

Lemma trailing3_app (body : string) (c1 c2 c3 : ascii) :
  trailing3 (body +:+ String c1 (String c2 (String c3 "")))
  = String c1 (String c2 (String c3 "")).
Proof.
  unfold trailing3. rewrite string_length_app. simpl String.length.
  replace (String.length body + 3 - 3)%nat with (String.length body) by lia.
  by rewrite substring_skip_app.
Qed.

Lemma prefix_app (p s t : string) :
  String.prefix p s = true → String.prefix p (s +:+ t) = true.
Proof.
  revert s. induction p as [|a p IH]; intros s Hp.
  - by destruct (s +:+ t).
  - destruct s as [|b s]; simpl in *; [done|].
    destruct (ascii_dec a b); [by apply IH | done].
Qed.

Lemma parseStatusCode_digits (c1 c2 c3 : ascii) (d1 d2 d3 : Z) :
  digitValue c1 = Some d1 → digitValue c2 = Some d2 → digitValue c3 = Some d3 →
  parseStatusCode (String c1 (String c2 (String c3 "")))
  = Some (100 * d1 + 10 * d2 + d3).
Proof.
  intros H1 H2 H3. unfold parseStatusCode. simpl.
  rewrite H1, H2, H3. f_equal. lia.
Qed.

Lemma digitValue_range (c : ascii) (d : Z) :
  digitValue c = Some d → 0 ≤ d ≤ 9.
Proof.
  unfold digitValue. intros H.
  destruct (48 <=? Z.of_N (N_of_ascii c)) eqn:Hlo; [|done].
  destruct (Z.of_N (N_of_ascii c) <=? 57) eqn:Hhi; [|done].
  simpl in H. inversion H. lia.
Qed.

(** A character that is not a decimal digit makes the parse fail. *)
Lemma parseDecimal_not_digit (s : string) (acc : Z) :
  (∃ c, c ∈ list_ascii_of_string s ∧ digitValue c = None) →
  parseDecimal acc s = None.
Proof.
  revert acc. induction s as [|a s IH]; intros acc (c & Hin & Hc); simpl in *.
  - by apply elem_of_nil in Hin.
  - apply elem_of_cons in Hin as [<-|Hin].
    + by rewrite Hc.
    + destruct (digitValue a); [|done]. apply IH. by exists c.
Qed.

Lemma parseStatusCode_not_digit (s : string) :
  (∃ c, c ∈ list_ascii_of_string s ∧ digitValue c = None) →
  parseStatusCode s = None.
Proof.
  intros H. destruct s; [done|]. unfold parseStatusCode.
  by apply parseDecimal_not_digit.
Qed.

(* ===================================================================== *)
(** ** The Synthetic Failure Resolver                                     *)
(* ===================================================================== *)

Section SyntheticFailure.

Variable failurePrefix : string.

Lemma classify_failing (clusterName : string) (code : Z) :
  String.prefix failurePrefix clusterName = true →
  parseStatusCode (trailing3 clusterName) = Some code →
  classify failurePrefix clusterName = Failing code.
Proof. intros Hp Hcode. unfold classify. by rewrite Hp, Hcode. Qed.


Lemma resolveCluster_failing reports minute clusterName code :
  classify failurePrefix clusterName = Failing code →
  resolveCluster failurePrefix reports minute clusterName
  = Done (SyntheticFailure code).
Proof. intros Hc. unfold resolveCluster. by rewrite Hc. Qed.


Lemma resolveOne_permitted reports minute org clusterName :
  authorize org = Permitted →
  resolveOne failurePrefix reports minute org clusterName
  = resolveCluster failurePrefix reports minute clusterName.
Proof. intros Ha. unfold resolveOne. by rewrite Ha. Qed.

(** With a minute of the hour, the storage read never panics. *)
Lemma ReadReportForCluster_total reports minute clusterName :
  0 ≤ minute ≤ 59 →
  ∃ r, ReadReportForCluster reports minute clusterName = Done r.
Proof.
  intros Hm. destruct (changingClusters !! clusterName) as [variants|] eqn:Hrot.
  - destruct (changingClusters_wf _ _ Hrot) as (Hne & _ & _).
    destruct (chooseReport_bucket minute variants Hne Hm)
      as (backing & _ & Hchoose).
    rewrite (ReadReportForCluster_changing _ _ _ _ _ Hrot Hchoose). by eexists.
  - rewrite ReadReportForCluster_plain by done. by eexists.
Qed.

Lemma resolveCluster_total reports minute clusterName :
  0 ≤ minute ≤ 59 →
  ∃ o, resolveCluster failurePrefix reports minute clusterName = Done o.
Proof.
  intros Hm. unfold resolveCluster.
  destruct (classify failurePrefix clusterName); [|by eexists..].
  destruct (ReadReportForCluster_total reports minute clusterName Hm)
    as [r ->].
  by eexists.
Qed.

(** An identifier that is neither rotating nor special is looked up
    under its own name. *)
Lemma resolveCluster_ordinary reports minute clusterName :
  classify failurePrefix clusterName = Normal →
  changingClusters !! clusterName = None →
  resolveCluster failurePrefix reports minute clusterName
  = Done (match reports !! clusterName with
          | Some payload => Found payload
          | None => NotFound
          end).
Proof.
  intros Hc Hplain. unfold resolveCluster. rewrite Hc.
  rewrite ReadReportForCluster_plain by done. unfold stored.
  by destruct (reports !! clusterName).
Qed.

(** An identifier that is neither rotating nor in the store never
    resolves to a payload, however it is classified. *)
Lemma foundPayload_unknown reports minute clusterName :
  changingClusters !! clusterName = None →
  reports !! clusterName = None →
  foundPayload failurePrefix reports minute clusterName = None.
Proof.
  intros Hplain Hmiss. unfold foundPayload, resolveCluster.
  destruct (classify failurePrefix clusterName); [|done..].
  rewrite ReadReportForCluster_plain by done. unfold stored.
  by rewrite Hmiss.
Qed.

End SyntheticFailure.

(** C4. An identifier that matches the synthetic-failure naming
    convention and ends in three decimal digits is classified
    [Failing] with the number they spell, and its per-cluster
    resolution is that status whatever the fixture store holds and
    whatever the time, also when the request names an organization that
    Access Control lets through; suffix 200 gives status 200, suffix 400
    gives 400 and suffix 500 gives 500. *)
Theorem synthetic_failure_short_circuits
    (failurePrefix body : string) (c1 c2 c3 : ascii) (d1 d2 d3 : Z) :
  String.prefix failurePrefix (body +:+ String c1 (String c2 (String c3 "")))
  = true →
  digitValue c1 = Some d1 → digitValue c2 = Some d2 → digitValue c3 = Some d3 →
  (classify failurePrefix (body +:+ String c1 (String c2 (String c3 "")))
   = Failing (100 * d1 + 10 * d2 + d3)
   ∧ (∀ (reports : gmap string string) (minute : Z),
        resolveCluster failurePrefix reports minute
          (body +:+ String c1 (String c2 (String c3 "")))
        = Done (SyntheticFailure (100 * d1 + 10 * d2 + d3)))
   ∧ (∀ (reports : gmap string string) (minute : Z) (org : option Z),
        authorize org = Permitted →
        resolveOne failurePrefix reports minute org
          (body +:+ String c1 (String c2 (String c3 "")))
        = Done (SyntheticFailure (100 * d1 + 10 * d2 + d3)))
   ∧ statusOf (SyntheticFailure (100 * d1 + 10 * d2 + d3))
     = 100 * d1 + 10 * d2 + d3)
  ∧ (String.prefix failurePrefix "ffffffff-ffff-ffff-ffff-000000000" = true →
     ∀ (reports : gmap string string) (minute : Z),
       resolveCluster failurePrefix reports minute
         "ffffffff-ffff-ffff-ffff-000000000200" = Done (SyntheticFailure 200)
       ∧ resolveCluster failurePrefix reports minute
           "ffffffff-ffff-ffff-ffff-000000000400" = Done (SyntheticFailure 400)
       ∧ resolveCluster failurePrefix reports minute
           "ffffffff-ffff-ffff-ffff-000000000500" = Done (SyntheticFailure 500)).
Proof.
  intros Hp H1 H2 H3.
  assert (Hclass :
    classify failurePrefix (body +:+ String c1 (String c2 (String c3 "")))
    = Failing (100 * d1 + 10 * d2 + d3)).
  { apply classify_failing; [done|].
    rewrite trailing3_app. by apply parseStatusCode_digits. }
  split; [repeat split|].
  - done.
  - intros reports minute. by apply resolveCluster_failing.
  - intros reports minute org Horg.
    rewrite resolveOne_permitted by done. by apply resolveCluster_failing.
  - intros Hstem reports minute.
    repeat split; apply resolveCluster_failing, classify_failing;
      try (by vm_compute);
      by apply (prefix_app _ "ffffffff-ffff-ffff-ffff-000000000").
Qed.

Lemma synthetic_failure_short_circuits_witness :
  classify "ffffffff-ffff-ffff-ffff-" "ffffffff-ffff-ffff-ffff-000000000404"
  = Failing 404
  ∧ resolveCluster "ffffffff-ffff-ffff-ffff-" healthyStore 20
      "ffffffff-ffff-ffff-ffff-000000000500" = Done (SyntheticFailure 500).
Proof.
  split.
  - apply (synthetic_failure_short_circuits "ffffffff-ffff-ffff-ffff-"
             "ffffffff-ffff-ffff-ffff-000000000" "4" "0" "4" 4 0 4);
      reflexivity.
  - apply (synthetic_failure_short_circuits "ffffffff-ffff-ffff-ffff-"
             "ffffffff-ffff-ffff-ffff-000000000" "4" "0" "4" 4 0 4);
      reflexivity.
Defined.



(* ===================================================================== *)
(** ** The Batch Aggregator                                               *)
(* ===================================================================== *)

Section Aggregation.

Variable failurePrefix : string.
Variable reports : gmap string string.
Variable minute : Z.

Local Abbreviation payloadOf := (foundPayload failurePrefix reports minute).

Lemma foundPayload_Some clusterName payload :
  payloadOf clusterName = Some payload
  ↔ resolveCluster failurePrefix reports minute clusterName
    = Done (Found payload).
Proof.
  unfold payloadOf, foundPayload.
  destruct (resolveCluster failurePrefix reports minute clusterName)
    as [[]|]; naive_solver.
Qed.

(** The loop appends, in input order, each identifier to exactly one
    of the two sequences. *)
Lemma aggregate_spec (clusterNames : list string) (acc : BatchResult) :
  0 ≤ minute ≤ 59 →
  aggregate failurePrefix reports minute clusterNames acc
  = Done {| found := found acc
                     ++ omap (λ id, pair id <$> payloadOf id) clusterNames;
            errored := errored acc
                       ++ filter (λ id, payloadOf id = None) clusterNames |}.
Proof.
  intros minute_of_hour.
  revert acc. induction clusterNames as [|id rest IH]; intros acc.
  - simpl. rewrite filter_nil, !app_nil_r. by destruct acc.
  - destruct (resolveCluster_total failurePrefix reports minute id minute_of_hour)
      as [o Ho].
    cbn [aggregate]. rewrite Ho. cbn [mbind Run_bind]. rewrite IH.
    assert (Hid : payloadOf id
                  = match o with Found payload => Some payload | _ => None end).
    { unfold payloadOf, foundPayload. rewrite Ho. by destruct o. }
    cbn [omap list_omap]. rewrite Hid.
    destruct o; cbn [found errored fmap option_fmap option_map].
    + rewrite filter_cons_False by (by rewrite Hid).
      by rewrite <- app_assoc.
    + rewrite filter_cons_True by (by rewrite Hid). by rewrite <- app_assoc.
    + rewrite filter_cons_True by (by rewrite Hid). by rewrite <- app_assoc.
    + rewrite filter_cons_True by (by rewrite Hid). by rewrite <- app_assoc.
    + rewrite filter_cons_True by (by rewrite Hid). by rewrite <- app_assoc.
Qed.

Lemma found_keys (clusterNames : list string) :
  (omap (λ id, pair id <$> payloadOf id) clusterNames).*1
  = filter (λ id, is_Some (payloadOf id)) clusterNames.
Proof.
  induction clusterNames as [|id rest IH]; [done|].
  cbn [omap list_omap]. destruct (payloadOf id) as [payload|] eqn:Hid.
  - rewrite filter_cons_True by (by rewrite Hid). cbn. by rewrite <- IH.
  - rewrite filter_cons_False by (rewrite Hid; by intros []). exact IH.
Qed.

Lemma partition_lengths (clusterNames : list string) :
  (length (filter (λ id, is_Some (payloadOf id)) clusterNames)
   + length (filter (λ id, payloadOf id = None) clusterNames))%nat
  = length clusterNames.
Proof.
  induction clusterNames as [|id rest IH]; [done|].
  destruct (payloadOf id) as [payload|] eqn:Hid.
  - rewrite filter_cons_True by (by rewrite Hid).
    rewrite (filter_cons_False (λ id, payloadOf id = None))
      by (by rewrite Hid).
    simpl. by rewrite IH.
  - rewrite filter_cons_False by (rewrite Hid; by intros []).
    rewrite (filter_cons_True (λ id, payloadOf id = None)) by done.
    simpl. rewrite Nat.add_succ_r. by rewrite IH.
Qed.

Lemma found_pairs (clusterNames : list string) (id payload : string) :
  (id, payload) ∈ omap (λ id, pair id <$> payloadOf id) clusterNames
  ↔ id ∈ clusterNames ∧ payloadOf id = Some payload.
Proof.
  rewrite list_elem_of_omap. split.
  - intros (id' & Hin & Hpair).
    destruct (payloadOf id') as [payload'|] eqn:Hid; [|done].
    simpl in Hpair. inversion Hpair; subst. done.
  - intros [Hin Hid]. exists id. by rewrite Hid.
Qed.

Lemma reports_lookup (clusterNames : list string) (id : string) :
  (list_to_map (omap (λ id, pair id <$> payloadOf id) clusterNames)
     : gmap string string) !! id
  = if decide (id ∈ clusterNames) then payloadOf id else None.
Proof.
  case_decide as Hin.
  - destruct (payloadOf id) as [payload|] eqn:Hid.
    + apply elem_of_list_to_map_1'.
      * intros payload' [_ Hp]%found_pairs. congruence.
      * by apply found_pairs.
    + apply not_elem_of_list_to_map_1. rewrite found_keys.
      rewrite list_elem_of_filter. rewrite Hid. by intros [[] _].
  - apply not_elem_of_list_to_map_1. rewrite found_keys.
    rewrite list_elem_of_filter. by intros [_ ?].
Qed.

End Aggregation.

(** C6. A batch request that Access Control lets through resolves each
    input identifier on its own and reports it in input order, a
    repeated identifier being reported as often as it was sent: the
    identifiers for which a report is found make up [clusters], and are
    exactly the keys of [reports], each under the identifier as
    requested; all other identifiers make up [errors]. An ordinary
    identifier is found exactly when it is a key of the fixture store,
    with the stored payload. A batch of exactly one identifier that is
    unknown has no found entry and one error entry, that identifier. *)
Theorem batch_resolution_partition
    (failurePrefix : string) (reports : gmap string string) (minute : Z)
    (org : option Z) (clusterNames : list string) :
  authorize org = Permitted → 0 ≤ minute ≤ 59 →
  ∃ r : BatchResult,
    resolveAll failurePrefix reports minute org clusterNames = Done (Batch r)
    ∧ Clusters (response r)
      = filter (λ id, is_Some (foundPayload failurePrefix reports minute id))
          clusterNames
    ∧ Errors (response r)
      = filter (λ id, foundPayload failurePrefix reports minute id = None)
          clusterNames
    ∧ (length (Clusters (response r)) + length (Errors (response r)))%nat
      = length clusterNames
    ∧ (∀ id, id ∈ Clusters (response r) ↔ is_Some (Reports (response r) !! id))
    ∧ (∀ id payload,
         Reports (response r) !! id = Some payload
         ↔ id ∈ clusterNames
           ∧ resolveCluster failurePrefix reports minute id = Done (Found payload))
    ∧ (∀ id, id ∈ clusterNames →
         classify failurePrefix id = Normal → changingClusters !! id = None →
         match reports !! id with
         | Some payload =>
             id ∈ Clusters (response r) ∧ (id ∉ Errors (response r))
             ∧ Reports (response r) !! id = Some payload
         | None =>
             id ∈ Errors (response r) ∧ id ∉ Clusters (response r)
         end)
    ∧ (∀ id, clusterNames = [id] →
         changingClusters !! id = None → reports !! id = None →
         found r = [] ∧ Clusters (response r) = []
         ∧ Errors (response r) = [id] ∧ Reports (response r) = ∅).
Proof.
  intros Horg Hm.
  pose proof (aggregate_spec failurePrefix reports minute clusterNames
                {| found := []; errored := [] |} Hm) as Hagg.
  cbn [found errored app] in Hagg.
  eexists. split.
  { unfold resolveAll. rewrite Horg, Hagg. reflexivity. }
  unfold response. cbn [Clusters Errors Reports found errored].
  split; [apply found_keys|]. split; [done|].
  rewrite found_keys.
  split; [apply partition_lengths|].
  split; [|split; [|split]].
  - intros id. rewrite reports_lookup, list_elem_of_filter.
    case_decide; [tauto|]. split; [tauto | by intros []].
  - intros id payload. rewrite reports_lookup, <- foundPayload_Some.
    clear Hagg. case_decide as Hin; [tauto|].
    split; [done | by intros [? _]].
  - intros id Hin Hclass Hplain.
    assert (Hown : foundPayload failurePrefix reports minute id = reports !! id).
    { unfold foundPayload.
      rewrite (resolveCluster_ordinary _ _ _ _ Hclass Hplain).
      by destruct (reports !! id). }
    clear Hagg Hclass Hplain.
    destruct (reports !! id) as [payload|] eqn:Hkey.
    + rewrite reports_lookup, decide_True by done.
      rewrite !list_elem_of_filter, Hown.
      split; [split; [by eexists | exact Hin]|].
      split; [by intros [? _] | reflexivity].
    + rewrite !list_elem_of_filter, Hown.
      split; [split; [reflexivity | exact Hin]|]. by intros [[] _].
  - intros id -> Hplain Hmiss.
    pose proof (foundPayload_unknown failurePrefix reports minute id Hplain Hmiss)
      as Hnone.
    clear Hagg.
    cbn [omap list_omap]. rewrite Hnone. cbn [fmap option_fmap option_map fst].
    rewrite filter_cons_False by (rewrite Hnone; by intros []).
    rewrite filter_cons_True by exact Hnone.
    rewrite !filter_nil. repeat split; reflexivity.
Qed.

Lemma batch_resolution_partition_witness :
  authorize (Some 11789772) = Permitted
  ∧ 0 ≤ 31 ≤ 59
  ∧ ∃ r, resolveAll "ffffffff-ffff-ffff-ffff-" healthyStore 31 (Some 11789772)
           ["bbbbbbbb-bbbb-bbbb-bbbb-cccccccccccc"] = Done (Batch r)
         ∧ Clusters (response r) = []
         ∧ Errors (response r) = ["bbbbbbbb-bbbb-bbbb-bbbb-cccccccccccc"].
Proof.
  split; [reflexivity|]. split; [lia|].
  destruct (batch_resolution_partition "ffffffff-ffff-ffff-ffff-" healthyStore 31
              (Some 11789772) ["bbbbbbbb-bbbb-bbbb-bbbb-cccccccccccc"])
    as (r & Hr & _ & _ & _ & _ & _ & _ & Hone); [reflexivity | lia |].
  exists r. split; [exact Hr|].
  destruct (Hone "bbbbbbbb-bbbb-bbbb-bbbb-cccccccccccc")
    as (_ & Hclusters & Herrors & _);
    [reflexivity | vm_compute; reflexivity | vm_compute; reflexivity |].
  split; [exact Hclusters | exact Herrors].
Defined.

(* ===================================================================== *)
(** ** Further properties of the initialization                           *)
(* ===================================================================== *)

Section InitializationMore.

Variable fs : FileSystem.
Variable path : string.

Lemma loadReports_all_readable (cs : list string) (m : gmap string string) :
  Forall (λ c, (readReport fs path c).2 = None) cs →
  loadReports fs path cs m = (loaded fs path cs m, None).
Proof.
  revert m. induction cs as [|c cs IH]; intros m Hall; [done|].
  apply Forall_cons in Hall as [Hc Hall]. cbn [loadReports].
  destruct (readReport fs path c) as [report oerr] eqn:Hread.
  cbn [snd] in Hc. subst oerr. rewrite (IH _ Hall).
  unfold loaded. cbn [foldl]. by rewrite Hread.
Qed.

(** The map a run of [initStorage] leaves, key by key. *)
Lemma initStorage_lookup (m reports : gmap string string) (oerr : option error) :
  initStorage fs path m = (reports, oerr) →
  ∃ before rest,
    storage.clusters = before ++ rest
    ∧ Forall (λ c, (readReport fs path c).2 = None) before
    ∧ (oerr = None → rest = [])
    ∧ ∀ k, reports !! k
           = if decide (k ∈ before) then Some (readReport fs path k).1
             else m !! k.
Proof.
  intros Hrun.
  destruct (loadReports_spec _ _ _ _ _ _ Hrun)
    as (before & rest & Hcs & Hread & -> & Hrest).
  exists before, rest. repeat split; [done.. | |].
  - intros ->. exact Hrest.
  - intros k. apply loaded_lookup.
Qed.

(** X1. [initStorage] writes keys of the catalog only and never removes
    an entry: a key outside the catalog keeps what it had, a key that
    was present stays present, and every entry of the result is either
    an old entry or the content of a report file that was read without
    error. This holds whether the run ends with an error or not. *)
Theorem initStorage_writes_catalog_only
    (m reports : gmap string string) (oerr : option error) :
  initStorage fs path m = (reports, oerr) →
  (∀ k, k ∉ storage.clusters → reports !! k = m !! k)
  ∧ (∀ k, is_Some (m !! k) → is_Some (reports !! k))
  ∧ (∀ k v, reports !! k = Some v →
       m !! k = Some v
       ∨ (k ∈ storage.clusters ∧ readReport fs path k = (v, None))).
Proof.
  intros Hrun.
  destruct (initStorage_lookup _ _ _ Hrun) as (before & rest & Hcs & Hread & _ & Hk).
  assert (Hsub : ∀ k, k ∈ before → k ∈ storage.clusters).
  { intros k Hin. rewrite Hcs. apply elem_of_app. by left. }
  split; [|split].
  - intros k Hout. rewrite Hk. rewrite decide_False; [done|]. naive_solver.
  - intros k Hsome. rewrite Hk. case_decide; [by eexists | done].
  - intros k v. rewrite Hk. case_decide as Hin; [|by left].
    intros [= <-]. right. split; [by apply Hsub|].
    rewrite Forall_forall in Hread. specialize (Hread k Hin).
    destruct (readReport fs path k) as [report oe]. simpl in *. by subst.
Qed.

(** X2. [initStorage] returns no error exactly when the report of every
    cluster of the catalog can be read. *)
Theorem initStorage_succeeds_iff_all_readable (m : gmap string string) :
  (initStorage fs path m).2 = None
  ↔ Forall (λ c, (readReport fs path c).2 = None) storage.clusters.
Proof.
  split.
  - intros Hok.
    destruct (initStorage_lookup m (initStorage fs path m).1
                (initStorage fs path m).2) as (before & rest & Hcs & Hread & Hrest & _).
    { apply surjective_pairing. }
    rewrite (Hrest Hok), app_nil_r in Hcs. by rewrite Hcs.
  - intros Hall. unfold initStorage.
    by rewrite (loadReports_all_readable _ _ Hall).
Qed.

(** X3. A successful [initStorage] is idempotent: run again on the map it
    produced, with the same files, it returns the same map and no
    error; and what it leaves at the keys of the catalog does not depend
    on the map it started from. *)
Theorem initStorage_idempotent
    (m reports : gmap string string) :
  initStorage fs path m = (reports, None) →
  initStorage fs path reports = (reports, None)
  ∧ ∀ m' reports', initStorage fs path m' = (reports', None) →
      ∀ k, k ∈ storage.clusters → reports' !! k = reports !! k.
Proof.
  intros Hrun.
  destruct (initStorage_lookup _ _ _ Hrun) as (before & rest & Hcs & Hread & Hrest & Hk).
  rewrite (Hrest eq_refl), app_nil_r in Hcs. subst before.
  split.
  - unfold initStorage. rewrite (loadReports_all_readable _ _ Hread).
    f_equal. apply map_eq. intros k. rewrite loaded_lookup, Hk.
    by case_decide.
  - intros m' reports' Hrun' k Hin.
    destruct (initStorage_lookup _ _ _ Hrun')
      as (before' & rest' & Hcs' & _ & Hrest' & Hk').
    rewrite (Hrest' eq_refl), app_nil_r in Hcs'. subst before'.
    rewrite Hk, Hk'. by rewrite !decide_True.
Qed.

End InitializationMore.

Lemma healthyFS_all_readable (path : string) (c : string) :
  (readReport healthyFS path c).2 = None.
Proof. reflexivity. Qed.

Lemma initStorage_healthy :
  initStorage healthyFS "data" ∅ = (healthyStore, None).
Proof.
  unfold healthyStore, initStorage.
  rewrite loadReports_all_readable; [done|].
  apply Forall_forall. intros c _. apply healthyFS_all_readable.
Qed.

Lemma initStorage_writes_catalog_only_witness :
  (New brokenFS "data" {[ "scratch" := "kept" ]}).2 !! "scratch" = Some "kept".
Proof.
  destruct (initStorage_writes_catalog_only brokenFS "data"
              {[ "scratch" := "kept" ]}
              (initStorage brokenFS "data" {[ "scratch" := "kept" ]}).1
              (initStorage brokenFS "data" {[ "scratch" := "kept" ]}).2)
    as (Hout & _ & _); [apply surjective_pairing|].
  unfold New. rewrite (surjective_pairing (initStorage _ _ _)). simpl.
  rewrite Hout; [reflexivity|].
  apply (bool_decide_unpack _). vm_compute. exact I.
Defined.

Lemma initStorage_idempotent_witness :
  initStorage healthyFS "data" healthyStore = (healthyStore, None).
Proof.
  exact (proj1 (initStorage_idempotent healthyFS "data" ∅ healthyStore
                  initStorage_healthy)).
Defined.

(* ===================================================================== *)
(** ** The catalog and the lists of the organizations                     *)
(* ===================================================================== *)

Lemma clusters_by_organization :
  storage.clusters
  = clustersForOrganization11789772 ++ clustersForOrganization1
    ++ clustersForOrganization2 ++ clustersForOrganization3.
Proof. reflexivity. Qed.

Lemma clusters_NoDup : NoDup storage.clusters.
Proof. apply (bool_decide_unpack _). by vm_compute. Qed.

(** The organizations that have a list, each with its list. *)
Lemma listed_cases (orgID : Z) (c : string) :
  c ∈ (ListOfClustersForOrg orgID).1 →
  (orgID = 11789772 ∧ c ∈ clustersForOrganization11789772)
  ∨ (orgID = 1 ∧ c ∈ clustersForOrganization1)
  ∨ (orgID = 2 ∧ c ∈ clustersForOrganization2)
  ∨ (orgID = 3 ∧ c ∈ clustersForOrganization3).
Proof.
  unfold ListOfClustersForOrg.
  destruct (Z.eqb_spec orgID 11940171) as [->|_];
    [by intros ?%elem_of_nil|].
  destruct (Z.eqb_spec orgID 11789772) as [->|_]; [by left|].
  destruct (Z.eqb_spec orgID 1) as [->|_]; [by right; left|].
  destruct (Z.eqb_spec orgID 2) as [->|_]; [by right; right; left|].
  destruct (Z.eqb_spec orgID 3) as [->|_]; [by right; right; right|].
  by intros ?%elem_of_nil.
Qed.

Lemma listed_permitted_and_loaded (orgID : Z) (c : string) :
  c ∈ (ListOfClustersForOrg orgID).1 →
  orgID ∈ [1; 2; 3; 11789772] ∧ c ∈ storage.clusters.
Proof.
  intros Hin. rewrite clusters_by_organization, !elem_of_app.
  destruct (listed_cases _ _ Hin) as [[-> ?]|[[-> ?]|[[-> ?]|[-> ?]]]];
    (split; [|tauto]);
    repeat first [apply list_elem_of_here | apply list_elem_of_further].
Qed.

(** Two lists of the catalog do not share a cluster. *)
Local Ltac clash H x L := apply (H x L); rewrite ?elem_of_app; tauto.

(** X4. The catalog of [initStorage] is split among the organizations: a
    cluster has its report loaded exactly when [ListOfClustersForOrg]
    lists it for some organization, no cluster is listed for two
    organizations, and no cluster is loaded twice. *)
Theorem catalog_partitioned_by_organization :
  (∀ c, c ∈ storage.clusters ↔ ∃ orgID, c ∈ (ListOfClustersForOrg orgID).1)
  ∧ (∀ o1 o2 c,
       c ∈ (ListOfClustersForOrg o1).1 → c ∈ (ListOfClustersForOrg o2).1 →
       o1 = o2)
  ∧ NoDup storage.clusters.
Proof.
  pose proof clusters_NoDup as Hnd. rewrite clusters_by_organization in Hnd.
  apply NoDup_app in Hnd as (_ & H0 & Hnd).
  apply NoDup_app in Hnd as (_ & H1 & Hnd).
  apply NoDup_app in Hnd as (_ & H2 & _).
  split; [|split; [|exact clusters_NoDup]].
  - intros c. split.
    + rewrite clusters_by_organization, !elem_of_app.
      intros [?|[?|[?|?]]];
        [by exists 11789772 | by exists 1 | by exists 2 | by exists 3].
    + intros [orgID Hin]. by apply (listed_permitted_and_loaded orgID).
  - intros o1 o2 c Hin1 Hin2.
    destruct (listed_cases _ _ Hin1) as [[-> L1]|[[-> L1]|[[-> L1]|[-> L1]]]];
    destruct (listed_cases _ _ Hin2) as [[-> L2]|[[-> L2]|[[-> L2]|[-> L2]]]];
      try reflexivity; exfalso;
      first [ clash H0 c L1 | clash H0 c L2 | clash H1 c L1 | clash H1 c L2
            | clash H2 c L1 | clash H2 c L2 ].
Qed.

Lemma catalog_partitioned_by_organization_witness :
  "00000002-6577-4e80-85e7-697cb646ff37" ∈ storage.clusters
  ∧ (2 : Z) = 2.
Proof.
  destruct catalog_partitioned_by_organization as (Hiff & Hone & _).
  split.
  - apply Hiff. exists 2. apply (bool_decide_unpack _). vm_compute. exact I.
  - apply (Hone 2 2 "00000002-6577-4e80-85e7-697cb646ff37");
      apply (bool_decide_unpack _); vm_compute; exact I.
Defined.

(** X5. After a start without error, every cluster that
    [ListOfClustersForOrg] lists for an organization can be fetched,
    under that organization and without organization, and the answer
    is the content of the cluster's report file, with no error. *)
Theorem listed_clusters_are_served
    (fs : FileSystem) (path : string) (m reports : gmap string string)
    (orgID minute : Z) (c : string) :
  initStorage fs path m = (reports, None) →
  c ∈ (ListOfClustersForOrg orgID).1 →
  ReadReportForOrganizationAndCluster reports orgID c
  = ((readReport fs path c).1, None)
  ∧ ReadReportForCluster reports minute c
    = Done ((readReport fs path c).1, None).
Proof.
  intros Hrun Hin.
  destruct (listed_permitted_and_loaded _ _ Hin) as [Horg Hcat].
  destruct (initStorage_lookup _ _ _ _ _ Hrun)
    as (before & rest & Hcs & _ & Hrest & Hk).
  rewrite (Hrest eq_refl), app_nil_r in Hcs. subst before.
  assert (Hc : reports !! c = Some (readReport fs path c).1).
  { rewrite Hk. by rewrite decide_True. }
  split.
  - rewrite ReadReportForOrganizationAndCluster_permitted by done.
    unfold stored. by rewrite Hc.
  - rewrite ReadReportForCluster_plain.
    + unfold stored. by rewrite Hc.
    + pose proof clusters_not_changing as Hall.
      rewrite Forall_forall in Hall. by apply Hall.
Qed.

Lemma listed_clusters_are_served_witness :
  ReadReportForOrganizationAndCluster healthyStore 3
    "00000003-8d6a-43cc-b82c-7007664bdf69"
  = ("/srv/data/report_00000003-8d6a-43cc-b82c-7007664bdf69.json", None).
Proof.
  apply (listed_clusters_are_served healthyFS "data" ∅ healthyStore 3 0
           "00000003-8d6a-43cc-b82c-7007664bdf69" initStorage_healthy).
  apply (bool_decide_unpack _). vm_compute. exact I.
Defined.

(* ===================================================================== *)
(** ** Further properties of the two fetch operations                     *)
(* ===================================================================== *)

(** X6. The two fetch operations never return a payload together with an
    error: when [ReadReportForCluster] returns an error, the payload is
    empty and the error is "Cluster not found"; when
    [ReadReportForOrganizationAndCluster] returns one, the payload is
    empty and the error is the no-permission message for organization
    11940171 and "Cluster not found" for every other organization. *)
Theorem fetch_error_has_empty_payload
    (reports : gmap string string) (minute orgID : Z) (clusterName : string)
    (payload : string) (err : error) :
  (ReadReportForCluster reports minute clusterName = Done (payload, Some err) →
     payload = "" ∧ err = errorString "Cluster not found")
  ∧ (ReadReportForOrganizationAndCluster reports orgID clusterName
     = (payload, Some err) →
     payload = ""
     ∧ (if orgID =? 11940171
        then err = errorString noPermissionsForOrg
        else err = errorString "Cluster not found")).
Proof.
  split.
  - unfold ReadReportForCluster, getReportForCluster.
    destruct (changingClusters !! clusterName) as [variants|].
    + destruct (chooseReport minute variants) as [backing|]; [|done].
      cbn. destruct (reports !! backing); by intros [= <- <-].
    + cbn. destruct (reports !! clusterName); by intros [= <- <-].
  - unfold ReadReportForOrganizationAndCluster, getReportForCluster.
    destruct (orgID =? 11940171); [by intros [= <- <-]|].
    destruct ((orgID =? 1) || (orgID =? 2) || (orgID =? 3) || (orgID =? 11789772));
      [|by intros [= <- <-]].
    destruct (reports !! clusterName); by intros [= <- <-].
Qed.

Lemma fetch_error_has_empty_payload_witness :
  ReadReportForCluster healthyStore 10 "no-such-cluster"
  = Done ("", Some (errorString "Cluster not found"))
  ∧ "" = "" ∧ errorString "Cluster not found" = errorString "Cluster not found".
Proof.
  assert (Hrun : ReadReportForCluster healthyStore 10 "no-such-cluster"
                 = Done ("", Some (errorString "Cluster not found"))).
  { vm_compute. reflexivity. }
  split; [exact Hrun|].
  exact (proj1 (fetch_error_has_empty_payload healthyStore 10 1
                  "no-such-cluster" "" (errorString "Cluster not found")) Hrun).
Defined.

(** X7. [ReadReportForOrganizationAndCluster] returns no error exactly
    when the organization is 1, 2, 3 or 11789772 and the cluster name
    is a key of the fixture store; it does not ask whether the cluster
    is one of the organization's clusters, so the four organizations
    get the same answer for the same cluster name. *)
Theorem organization_fetch_success
    (reports : gmap string string) (clusterName : string) :
  (∀ orgID : Z,
     (ReadReportForOrganizationAndCluster reports orgID clusterName).2 = None
     ↔ orgID ∈ [1; 2; 3; 11789772] ∧ is_Some (reports !! clusterName))
  ∧ (∀ o1 o2 : Z,
       o1 ∈ [1; 2; 3; 11789772] → o2 ∈ [1; 2; 3; 11789772] →
       ReadReportForOrganizationAndCluster reports o1 clusterName
       = ReadReportForOrganizationAndCluster reports o2 clusterName).
Proof.
  split.
  - intros orgID. split.
    + intros Hok.
      destruct (decide (orgID ∈ [1; 2; 3; 11789772])) as [Horg|Horg].
      * split; [done|].
        rewrite ReadReportForOrganizationAndCluster_permitted in Hok by done.
        unfold stored in Hok. by destruct (reports !! clusterName).
      * exfalso. revert Hok.
        rewrite !elem_of_cons, elem_of_nil in Horg.
        unfold ReadReportForOrganizationAndCluster.
        destruct (Z.eqb_spec orgID 11940171); [done|].
        destruct (Z.eqb_spec orgID 1); [tauto|].
        destruct (Z.eqb_spec orgID 2); [tauto|].
        destruct (Z.eqb_spec orgID 3); [tauto|].
        destruct (Z.eqb_spec orgID 11789772); [tauto|]. done.
    + intros [Horg [payload Hkey]].
      rewrite ReadReportForOrganizationAndCluster_permitted by done.
      unfold stored. by rewrite Hkey.
  - intros o1 o2 H1 H2.
    by rewrite !ReadReportForOrganizationAndCluster_permitted.
Qed.

Lemma organization_fetch_success_witness :
  ReadReportForOrganizationAndCluster healthyStore 2
    "00000001-624a-49a5-bab8-4fdc5e51a266"
  = ReadReportForOrganizationAndCluster healthyStore 1
      "00000001-624a-49a5-bab8-4fdc5e51a266"
  ∧ (ReadReportForOrganizationAndCluster healthyStore 2
       "00000001-624a-49a5-bab8-4fdc5e51a266").2 = None.
Proof.
  destruct (organization_fetch_success healthyStore
              "00000001-624a-49a5-bab8-4fdc5e51a266") as [Hiff Hsame].
  split.
  - apply Hsame; apply (bool_decide_unpack _); vm_compute; exact I.
  - apply Hiff. split.
    + apply (bool_decide_unpack _). vm_compute. exact I.
    + exists "/srv/data/report_00000001-624a-49a5-bab8-4fdc5e51a266.json".
      vm_compute. reflexivity.
Defined.

(** X8. For a cluster name that is not a rotating identifier, the fetch
    under organization 1, 2, 3 or 11789772 and the fetch without
    organization return the same payload and the same error, whatever
    the fixture store holds and whatever the time. *)
Theorem fetches_agree_without_rotation
    (reports : gmap string string) (minute orgID : Z) (clusterName : string) :
  orgID ∈ [1; 2; 3; 11789772] →
  changingClusters !! clusterName = None →
  ReadReportForCluster reports minute clusterName
  = Done (ReadReportForOrganizationAndCluster reports orgID clusterName).
Proof.
  intros Horg Hplain.
  rewrite ReadReportForCluster_plain by done.
  by rewrite ReadReportForOrganizationAndCluster_permitted.
Qed.

Lemma fetches_agree_without_rotation_witness :
  ReadReportForCluster healthyStore 50 "a7467445-8d6a-43cc-b82c-7007664bdf69"
  = Done (ReadReportForOrganizationAndCluster healthyStore 11789772
            "a7467445-8d6a-43cc-b82c-7007664bdf69").
Proof.
  apply (fetches_agree_without_rotation healthyStore 50 11789772
           "a7467445-8d6a-43cc-b82c-7007664bdf69").
  - apply (bool_decide_unpack _). vm_compute. exact I.
  - vm_compute. reflexivity.
Defined.

(** X9. On a fixture store loaded without error, at any minute of the
    hour, [ReadReportForCluster] returns a payload without error
    exactly for the clusters of the catalog and for the rotating
    identifiers; for every other name it returns "Cluster not found". *)
Theorem cluster_fetch_success
    (fs : FileSystem) (path : string) (reports : gmap string string)
    (minute : Z) (clusterName : string) :
  initStorage fs path ∅ = (reports, None) →
  0 ≤ minute ≤ 59 →
  ((∃ payload, ReadReportForCluster reports minute clusterName
               = Done (payload, None))
   ↔ clusterName ∈ storage.clusters
     ∨ is_Some (changingClusters !! clusterName))
  ∧ (clusterName ∉ storage.clusters → changingClusters !! clusterName = None →
     ReadReportForCluster reports minute clusterName
     = Done ("", Some (errorString "Cluster not found"))).
Proof.
  intros Hrun Hm.
  pose proof (initStorage_success _ _ _ Hrun) as Hstore.
  assert (Hmiss : clusterName ∉ storage.clusters →
                  changingClusters !! clusterName = None →
                  ReadReportForCluster reports minute clusterName
                  = Done ("", Some (errorString "Cluster not found"))).
  { intros Hout Hplain. rewrite ReadReportForCluster_plain by done.
    unfold stored. rewrite Hstore. by rewrite decide_False. }
  split; [|exact Hmiss]. split.
  - intros [payload Hok].
    destruct (decide (clusterName ∈ storage.clusters)) as [?|Hout]; [by left|].
    destruct (changingClusters !! clusterName) as [variants|] eqn:Hrot;
      [right; by eexists|].
    rewrite (Hmiss Hout eq_refl) in Hok. done.
  - intros [Hcat|Hrot].
    + rewrite ReadReportForCluster_plain.
      * unfold stored. rewrite Hstore. rewrite decide_True by done. by eexists.
      * pose proof clusters_not_changing as Hall.
        rewrite Forall_forall in Hall. by apply Hall.
    + destruct (organization_fetch_does_not_rotate fs path reports minute 1
                  clusterName Hrun Hm (list_elem_of_here _ _) Hrot) as [_ Hok].
      exact Hok.
Qed.

Lemma cluster_fetch_success_witness :
  ∃ payload, ReadReportForCluster healthyStore 59
               "cccccccc-cccc-cccc-cccc-000000000004" = Done (payload, None).
Proof.
  apply (cluster_fetch_success healthyFS "data" healthyStore 59
           "cccccccc-cccc-cccc-cccc-000000000004" initStorage_healthy).
  - lia.
  - right. eexists. vm_compute. reflexivity.
Defined.

(* ===================================================================== *)
(** ** Further properties of [chooseReport]                               *)
(* ===================================================================== *)

(** The remainder computed by [chooseReport] indexes the slice as soon
    as it is not negative. *)
Lemma rem_index_in_range (i : Z) (variants : list string) :
  variants ≠ [] → 0 ≤ Z.rem i (Z.of_nat (length variants)) →
  is_Some (variants !! Z.to_nat (Z.rem i (Z.of_nat (length variants)))).
Proof.
  intros Hne Hpos. apply lookup_lt_is_Some_2.
  assert (Hn : Z.of_nat (length variants) ≠ 0).
  { destruct variants; [done | simpl; lia]. }
  pose proof (Z.rem_bound_abs i _ Hn). lia.
Qed.

(** The three outcomes of [chooseReport]. *)
Lemma chooseReport_cases (minute : Z) (variants : list string) :
  (chooseReport minute variants = Panic
   ↔ variants = []
     ∨ Z.rem (Z.quot minute 15) (Z.of_nat (length variants)) < 0)
  ∧ (∀ cluster, chooseReport minute variants = Done cluster →
       cluster ∈ variants)
  ∧ (0 ≤ minute → variants ≠ [] →
     ∃ cluster, chooseReport minute variants = Done cluster).
Proof.
  assert (Hdone : ∀ cluster, chooseReport minute variants = Done cluster →
                             cluster ∈ variants).
  { intros cluster. unfold chooseReport.
    destruct (Z.of_nat (length variants) =? 0); [done|].
    destruct (_ <? 0); [done|].
    destruct (variants !! _) as [c|] eqn:Hc; [|done].
    intros [= <-]. by eapply list_elem_of_lookup_2. }
  assert (Hiff : chooseReport minute variants = Panic
                 ↔ variants = []
                   ∨ Z.rem (Z.quot minute 15) (Z.of_nat (length variants)) < 0).
  { unfold chooseReport, changingClustersPeriodInMinutes.
    destruct (Z.eqb_spec (Z.of_nat (length variants)) 0) as [Hz|Hnz].
    - split; [|done]. intros _. left. destruct variants; [done | simpl in Hz; lia].
    - assert (Hne : variants ≠ []) by (intros ->; simpl in Hnz; lia).
      destruct (Z.ltb_spec (Z.rem (Z.quot minute 15) (Z.of_nat (length variants))) 0)
        as [Hneg|Hpos].
      + split; [by right | done].
      + destruct (rem_index_in_range _ _ Hne Hpos) as [c ->].
        split; [done|]. intros [?|?]; [done | lia]. }
  split; [exact Hiff|]. split; [exact Hdone|].
  intros Hm Hne.
  assert (Hnp : chooseReport minute variants ≠ Panic).
  { intros [?|Hneg]%Hiff; [done|].
    assert (0 ≤ Z.quot minute 15) by (apply Z.quot_pos; lia).
    assert (Hn : Z.of_nat (length variants) ≠ 0).
    { destruct variants; [done | simpl; lia]. }
    pose proof (Z.rem_nonneg (Z.quot minute 15) _ Hn). lia. }
  destruct (chooseReport minute variants) as [cluster|]; [by eexists | done].
Qed.

(** X10. [chooseReport] panics in two cases only: on an empty slice
    (whatever the minute), and when the remainder of the quarter index
    by the number of variants is negative, which needs a negative
    minute; otherwise it returns an element of the slice, and it always
    does so for a minute that is not negative and a slice that is not
    empty. *)
Theorem chooseReport_panics_iff (minute : Z) (variants : list string) :
  (chooseReport minute variants = Panic
   ↔ variants = []
     ∨ Z.rem (Z.quot minute 15) (Z.of_nat (length variants)) < 0)
  ∧ (∀ cluster, chooseReport minute variants = Done cluster →
       cluster ∈ variants)
  ∧ (0 ≤ minute → variants ≠ [] →
     ∃ cluster, chooseReport minute variants = Done cluster).
Proof. exact (chooseReport_cases minute variants). Qed.

Lemma chooseReport_panics_iff_witness :
  chooseReport (-15) ["a"; "b"; "c"] = Panic
  ∧ ∃ cluster, chooseReport 75 ["a"; "b"; "c"] = Done cluster.
Proof.
  destruct (chooseReport_panics_iff (-15) ["a"; "b"; "c"]) as (Hiff & _ & _).
  destruct (chooseReport_panics_iff 75 ["a"; "b"; "c"]) as (_ & _ & Hdone).
  split.
  - apply Hiff. right. vm_compute. reflexivity.
  - apply Hdone; [lia | done].
Defined.

(** X11. With three variants, which is what every entry of
    [changingClusters] has, the four quarters of the hour select the
    first, the second, the third and again the first variant. *)
Theorem chooseReport_three_variants (minute : Z) (v0 v1 v2 : string) :
  0 ≤ minute ≤ 59 →
  chooseReport minute [v0; v1; v2]
  = Done (if minute <? 15 then v0
          else if minute <? 30 then v1
          else if minute <? 45 then v2
          else v0).
Proof.
  intros Hm.
  destruct (chooseReport_bucket minute [v0; v1; v2]) as (backing & Hlook & ->);
    [done | lia |].
  f_equal. simpl length in Hlook.
  assert (Hq : minute `div` 15 = 0 ∨ minute `div` 15 = 1
               ∨ minute `div` 15 = 2 ∨ minute `div` 15 = 3).
  { pose proof (period_floor_range minute Hm). lia. }
  assert (Hdiv : 15 * (minute `div` 15) ≤ minute < 15 * (minute `div` 15) + 15).
  { pose proof (Z.mod_pos_bound minute 15).
    pose proof (Z.div_mod minute 15). lia. }
  destruct Hq as [Hq|[Hq|[Hq|Hq]]]; rewrite Hq in Hlook, Hdiv;
    vm_compute in Hlook; injection Hlook as <-;
    repeat (case_match; try lia); reflexivity.
Qed.

Lemma chooseReport_three_variants_witness :
  chooseReport 52 ["a"; "b"; "c"] = Done "a".
Proof.
  apply (chooseReport_three_variants 52 "a" "b" "c"). lia.
Defined.

(** X12. Whatever the minute of the hour, a rotating identifier is served
    the report of a cluster of organization 11789772: the variant
    [chooseReport] selects from its entry of [changingClusters] is in
    [clustersForOrganization11789772]. *)
Theorem rotation_stays_in_organization_11789772
    (minute : Z) (clusterName : string) (variants : list string) :
  changingClusters !! clusterName = Some variants →
  0 ≤ minute →
  ∃ backing,
    chooseReport minute variants = Done backing
    ∧ backing ∈ clustersForOrganization11789772
    ∧ backing ∈ (ListOfClustersForOrg 11789772).1.
Proof.
  intros Hrot Hm.
  destruct (changingClusters_wf _ _ Hrot) as (Hne & _ & _).
  destruct (chooseReport_cases minute variants) as (_ & Hin & Hdone).
  destruct (Hdone Hm Hne) as [backing Hrun].
  exists backing. split; [done|].
  assert (Hall : map_Forall
            (λ _ vs, Forall (λ b, b ∈ clustersForOrganization11789772) vs)
            changingClusters).
  { apply (bool_decide_unpack _). by vm_compute. }
  specialize (Hall _ _ Hrot). rewrite Forall_forall in Hall.
  split; by apply Hall, Hin.
Qed.

Lemma rotation_stays_in_organization_11789772_witness :
  ∃ backing,
    chooseReport 40
      ["eeeeeeee-eeee-eeee-eeee-000000000001";
       "eeeeeeee-eeee-eeee-eeee-000000000001";
       "34c3ecc5-624a-49a5-bab8-4fdc5e51a266"] = Done backing
    ∧ backing ∈ clustersForOrganization11789772.
Proof.
  destruct (rotation_stays_in_organization_11789772 40
              "cccccccc-cccc-cccc-cccc-000000000004"
              ["eeeeeeee-eeee-eeee-eeee-000000000001";
               "eeeeeeee-eeee-eeee-eeee-000000000001";
               "34c3ecc5-624a-49a5-bab8-4fdc5e51a266"])
    as (backing & Hrun & Hin & _); [vm_compute; reflexivity | lia |].
  by exists backing.
Defined.

(* ===================================================================== *)
(** ** The prefix of the REST API endpoints                               *)
(* ===================================================================== *)

Lemma substring_whole (s : string) : substring 0 (String.length s) s = s.
Proof. induction s as [|c s IH]; simpl; [done | by rewrite IH]. Qed.

(** A string is what comes before position [n] followed by the rest. *)
Lemma substring_split (s : string) (n : nat) :
  (n ≤ String.length s)%nat →
  s = substring 0 n s +:+ substring n (String.length s - n) s.
Proof.
  revert n. induction s as [|c s IH]; intros n Hn.
  - destruct n; [done | simpl in Hn; lia].
  - destruct n as [|n].
    + simpl. by rewrite substring_whole.
    + cbn in *.
      change (String c s
              = String c (substring 0 n s
                          +:+ substring n (String.length s - n) s)).
      f_equal. apply IH. lia.
Qed.

(** [strings.HasSuffix] holds exactly for the strings that end in the
    suffix. *)
Lemma HasSuffix_spec (s suffix : string) :
  server.HasSuffix s suffix = true ↔ ∃ front, s = front +:+ suffix.
Proof.
  unfold server.HasSuffix. rewrite andb_true_iff, Nat.leb_le, String.eqb_eq.
  split.
  - intros [Hlen Hsub].
    exists (substring 0 (String.length s - String.length suffix) s).
    pose proof (substring_split s (String.length s - String.length suffix))
      as Hsplit.
    replace (String.length s - (String.length s - String.length suffix))%nat
      with (String.length suffix) in Hsplit by lia.
    rewrite Hsub in Hsplit. apply Hsplit. lia.
  - intros [front ->]. rewrite string_length_app. split; [lia|].
    replace (String.length front + String.length suffix - String.length suffix)%nat
      with (String.length front) by lia.
    by rewrite substring_skip_app, substring_whole.
Qed.

Lemma string_app_assoc (a b c : string) : (a +:+ b) +:+ c = a +:+ (b +:+ c).
Proof.
  induction a as [|x a IH]; [done|].
  change (String x ((a +:+ b) +:+ c) = String x (a +:+ (b +:+ c))).
  by rewrite IH.
Qed.

Lemma prefix_self_app (a b : string) : String.prefix a (a +:+ b) = true.
Proof.
  induction a as [|x a IH]; [by destruct b|].
  change (String.prefix (String x a) (String x (a +:+ b)) = true).
  simpl. destruct (ascii_dec x x); [exact IH | done].
Qed.

(** X13. The API prefix the endpoints are registered under always ends
    in a slash: a configured prefix that ends in one is kept as it is,
    any other (the empty one too) gets exactly one slash appended; the
    step is idempotent, the configured prefix stays a prefix of every
    endpoint path, and at most one character is added. *)
Theorem apiPrefix_ends_in_slash (configured : string) :
  server.HasSuffix (server.apiPrefix configured) "/" = true
  ∧ ((∃ front, configured = front +:+ "/") →
     server.apiPrefix configured = configured)
  ∧ ((∀ front, configured ≠ front +:+ "/") →
     server.apiPrefix configured = configured +:+ "/")
  ∧ server.apiPrefix (server.apiPrefix configured) = server.apiPrefix configured
  ∧ (∀ endpoint,
       String.prefix configured (server.endpointPath configured endpoint) = true)
  ∧ (String.length (server.apiPrefix configured)
     ≤ String.length configured + 1)%nat.
Proof.
  assert (Hcases :
    (server.HasSuffix configured "/" = true
     ∧ server.apiPrefix configured = configured)
    ∨ (server.HasSuffix configured "/" = false
       ∧ server.apiPrefix configured = configured +:+ "/")).
  { unfold server.apiPrefix.
    destruct (server.HasSuffix configured "/"); [by left | by right]. }
  assert (Hslash : server.HasSuffix (server.apiPrefix configured) "/" = true).
  { destruct Hcases as [[Hs ->]|[_ ->]]; [done|].
    apply HasSuffix_spec. by eexists. }
  split; [done|]. split; [|split; [|split; [|split]]].
  - intros Hend%HasSuffix_spec.
    destruct Hcases as [[_ ->]|[Hs _]]; [done | congruence].
  - intros Hnot. destruct Hcases as [[Hs _]|[_ ->]]; [|done].
    apply HasSuffix_spec in Hs as [front ->]. by destruct (Hnot front).
  - unfold server.apiPrefix at 1. by rewrite Hslash.
  - intros endpoint. unfold server.endpointPath.
    destruct Hcases as [[_ ->]|[_ ->]].
    + apply prefix_self_app.
    + rewrite string_app_assoc. apply prefix_self_app.
  - destruct Hcases as [[_ ->]|[_ ->]]; [lia|].
    rewrite string_length_app. simpl. lia.
Qed.

Lemma apiPrefix_ends_in_slash_witness :
  server.apiPrefix "/api/v1/" = "/api/v1/"
  ∧ server.apiPrefix "/api/v1" = "/api/v1/"
  ∧ server.apiPrefix "" = "/".
Proof.
  destruct (apiPrefix_ends_in_slash "/api/v1/") as (_ & Hkept & _).
  destruct (apiPrefix_ends_in_slash "/api/v1") as (_ & _ & Hadded & _).
  destruct (apiPrefix_ends_in_slash "") as (_ & _ & Hempty & _).
  split; [|split].
  - apply Hkept. by exists "/api/v1".
  - apply Hadded. intros front Heq.
    assert (Hyes : server.HasSuffix "/api/v1" "/" = true).
    { apply HasSuffix_spec. by exists front. }
    vm_compute in Hyes. discriminate.
  - apply Hempty. intros front Heq. destruct front; discriminate.
Defined.

(* ===================================================================== *)
(** ** The helpers that inspect a batch response                          *)
(* ===================================================================== *)

(** The loop returns from inside exactly when the name occurs. *)
Lemma foundInRange_spec (names : list string) (clusterName : string) :
  tests.foundInRange names clusterName = true ↔ clusterName ∈ names.
Proof.
  induction names as [|cluster rest IH]; simpl.
  - split; [done | by intros ?%elem_of_nil].
  - destruct (String.eqb_spec cluster clusterName) as [->|Hne].
    + split; [intros _; by left | done].
    + rewrite IH, elem_of_cons. split; [by right|].
      intros [Heq|Hin]; [by destruct Hne | done].
Qed.

(** X14. [expectClusterInResponse] reports nothing exactly when the
    cluster occurs in [response.Clusters], and
    [expectErrorClusterInResponse] exactly when it occurs in
    [response.Errors]; otherwise each reports one error, whose text
    names the cluster. Neither looks at the other fields, nor does a
    repeated name change the outcome. *)
Theorem expectClusterInResponse_spec {V : Type}
    (response : tests.MultipleReportsResponse V) (clusterName : string) :
  (tests.expectClusterInResponse response clusterName = []
   ↔ clusterName ∈ tests.Clusters response)
  ∧ (clusterName ∉ tests.Clusters response →
     tests.expectClusterInResponse response clusterName
     = ["Cluster " +:+ clusterName
        +:+ " can not be found in server response in the cluster list"])
  ∧ (tests.expectErrorClusterInResponse response clusterName = []
     ↔ clusterName ∈ tests.Errors response)
  ∧ (clusterName ∉ tests.Errors response →
     tests.expectErrorClusterInResponse response clusterName
     = ["Cluster " +:+ clusterName
        +:+ " can not be found in server response in the errors list"]).
Proof.
  unfold tests.expectClusterInResponse, tests.expectErrorClusterInResponse.
  pose proof (foundInRange_spec (tests.Clusters response) clusterName) as Hc.
  pose proof (foundInRange_spec (tests.Errors response) clusterName) as He.
  destruct (tests.foundInRange (tests.Clusters response) clusterName);
    destruct (tests.foundInRange (tests.Errors response) clusterName);
    repeat split; try done; try tauto;
    try (intros Hin; apply Hc in Hin; done);
    try (intros Hin; apply He in Hin; done);
    try (intros Hout; exfalso; apply Hout; tauto).
Qed.

Lemma expectClusterInResponse_spec_witness :
  tests.expectClusterInResponse
    {| tests.Clusters := ["a"; "b"]; tests.Errors := ["x"];
       tests.Reports := (∅ : gmap string nat);
       tests.GeneratedAt := ""; tests.Status := "ok" |} "x"
  = ["Cluster x can not be found in server response in the cluster list"].
Proof.
  destruct (expectClusterInResponse_spec
              {| tests.Clusters := ["a"; "b"]; tests.Errors := ["x"];
                 tests.Reports := (∅ : gmap string nat);
                 tests.GeneratedAt := ""; tests.Status := "ok" |} "x")
    as (_ & Hmissing & _).
  apply Hmissing. apply (bool_decide_unpack _). vm_compute. exact I.
Defined.

(** X15. Whatever the order in which Go's [range] visits the keys of
    [response.Reports], [expectReportInResponse] reports nothing exactly
    when the cluster is a key of the map, and one error otherwise; two
    runs with different orders give the same result. *)
Theorem expectReportInResponse_spec {V : Type} (order order' : list string)
    (response : tests.MultipleReportsResponse V) (clusterName : string) :
  tests.rangeOrder order (tests.Reports response) →
  tests.rangeOrder order' (tests.Reports response) →
  (tests.expectReportInResponse order response clusterName = []
   ↔ is_Some (tests.Reports response !! clusterName))
  ∧ (tests.Reports response !! clusterName = None →
     tests.expectReportInResponse order response clusterName
     = ["Cluster " +:+ clusterName
        +:+ " can not be found in server response in reports map"])
  ∧ tests.expectReportInResponse order response clusterName
    = tests.expectReportInResponse order' response clusterName.
Proof.
  unfold tests.rangeOrder. intros Horder Horder'.
  assert (Hkeys : ∀ o, o ≡ₚ (map_to_list (tests.Reports response)).*1 →
            (tests.foundInRange o clusterName = true
             ↔ is_Some (tests.Reports response !! clusterName))).
  { intros o Ho. rewrite foundInRange_spec, Ho.
    rewrite list_elem_of_fmap. split.
    - intros ([k v] & -> & Hin). apply elem_of_map_to_list in Hin. by eexists.
    - intros [v Hv]. exists (clusterName, v). split; [done|].
      by apply elem_of_map_to_list. }
  pose proof (Hkeys order Horder) as H1. pose proof (Hkeys order' Horder') as H2.
  unfold tests.expectReportInResponse.
  destruct (tests.foundInRange order clusterName);
    destruct (tests.foundInRange order' clusterName).
  - split; [|split; [|reflexivity]].
    + split; [intros _; by apply H1 | done].
    + intros Hnone. destruct (proj1 H1 eq_refl) as [v Hv]. congruence.
  - exfalso. pose proof (proj2 H2 (proj1 H1 eq_refl)). discriminate.
  - exfalso. pose proof (proj2 H1 (proj1 H2 eq_refl)). discriminate.
  - split; [|split; reflexivity].
    split; [done|]. intros Hsome. apply H1 in Hsome. discriminate.
Qed.

Lemma expectReportInResponse_spec_witness :
  tests.expectReportInResponse ["b"; "a"]
    {| tests.Clusters := []; tests.Errors := [];
       tests.Reports := ({[ "a" := 1%nat; "b" := 2%nat ]} : gmap string nat);
       tests.GeneratedAt := ""; tests.Status := "ok" |} "a"
  = tests.expectReportInResponse ["a"; "b"]
      {| tests.Clusters := []; tests.Errors := [];
         tests.Reports := ({[ "a" := 1%nat; "b" := 2%nat ]} : gmap string nat);
         tests.GeneratedAt := ""; tests.Status := "ok" |} "a".
Proof.
  apply (expectReportInResponse_spec ["b"; "a"] ["a"; "b"]
           {| tests.Clusters := []; tests.Errors := [];
              tests.Reports := ({[ "a" := 1%nat; "b" := 2%nat ]} : gmap string nat);
              tests.GeneratedAt := ""; tests.Status := "ok" |} "a");
    unfold tests.rangeOrder; vm_compute map_to_list; simpl.
  - apply Permutation_swap.
  - reflexivity.
Defined.
